(** * flexx.pair: syncing of signals between the Python and the JS half
      of a Pair object.

    A shallow embedding of [flexx/pair/pair.py].  The file has three parts:
    - [JS]: the methods of the nested class [Pair.JS] (the side that runs in
      the browser), as computations over the state of one JS instance;
    - [Py]: the Python side: [JSSignal], the methods of [Pair], the weak
      instance registry and the (de)serialisation hooks;
    - [Meta]: the proxy-creation loops of [PairMeta.__init__].

    Only the serializer, the builtin [repr] and the reactive primitive of
    [flexx.react] live outside [pair.py]; the first two are section
    variables, the third is modelled where a method of [pair.py] calls it. *)

From stdpp Require Import gmap strings list fin_maps pretty.
From Stdlib Require Import ZArith DecimalString.

Set Warnings "-register-all".
Local Open Scope Z_scope.

(** Values that travel over the wire (what [serializer.saves] accepts). *)
Inductive json : Type :=
  | VNone
  | VBool (b : bool)
  | VInt (z : Z)
  | VStr (s : string)
  | VList (l : list json)
  | VDict (d : list (string * json)).

(** [d[key]] on a Python/JS dictionary literal kept as an association list:
    the first binding of the key. *)
Fixpoint dict_get {A : Type} (key : string) (d : list (string * A)) : option A :=
  match d with
  | [] => None
  | (k, v) :: rest => if decide (k = key) then Some v else dict_get key rest
  end.

(** ** The JS side: class [Pair.JS] *)
Module JS.

(** A signal object as the JS methods see it. *)
Record Signal : Type := mkSignal {
  signal_type : string;
  _name : string;
  value : json;
  _timestamp : Z
}.

(** A signal that is computed from another one: its name, the function
    that gives its value from the value of the other, and the signals that
    are computed from it in turn. *)
Inductive Dependent : Type :=
  | Dep (name : string) (func : json -> json) (downstream : list Dependent).

(** One JS instance: [self.id], the echo lock, [self._linked_signals], the
    signal-valued properties [self[name]], the names of its other
    properties that hold a value ([id], [_id], [_linked_signals], [_init]
    and the other methods), and for each signal the signals that depend on
    it.  [_signal_emit_lock] is never initialised by [__init__]; the
    undefined property is falsy. *)
Record Instance : Type := mkInstance {
  id : string;
  _signal_emit_lock : bool;
  _linked_signals : gmap string bool;
  signals : gmap string Signal;
  members : gset string;
  dependents : gmap string (list Dependent)
}.

(** The instance together with the globals its methods touch: [flexx.ws]
    ([None], or the messages sent so far on the socket) and the clock. *)
Record World : Type := mkWorld {
  ws : option (list string);
  clock : Z;
  self : Instance
}.

Inductive exn : Type :=
  | TypeError      (* property access on undefined, call of a missing method *)
  | DecodeError.   (* raised by flexx.serializer.loads *)

(** Computations of the JS runtime: state is kept when an exception is
    thrown. *)
Definition M (A : Type) : Type := World -> (exn + A) * World.

Definition ret {A : Type} (a : A) : M A := fun w => (inr a, w).

Definition throw {A : Type} (e : exn) : M A := fun w => (inl e, w).

Definition bind {A B : Type} (m : M A) (k : A -> M B) : M B :=
  fun w => match m w with
           | (inl e, w') => (inl e, w')
           | (inr a, w') => k a w'
           end.

Notation "'let*' x ':=' m 'in' k" := (bind m (fun x => k))
  (at level 10, x binder, m at level 200, k at level 200).

Definition get : M World := fun w => (inr w, w).

Definition modify (f : World -> World) : M unit := fun w => (inr tt, f w).

Definition set_lock (b : bool) (w : World) : World :=
  mkWorld (ws w) (clock w)
    (mkInstance (id (self w)) b (_linked_signals (self w)) (signals (self w))
       (members (self w)) (dependents (self w))).

Definition set_linked (l : gmap string bool) (w : World) : World :=
  mkWorld (ws w) (clock w)
    (mkInstance (id (self w)) (_signal_emit_lock (self w)) l (signals (self w))
       (members (self w)) (dependents (self w))).

Definition set_signal (name : string) (s : Signal) (w : World) : World :=
  mkWorld (ws w) (clock w)
    (mkInstance (id (self w)) (_signal_emit_lock (self w))
       (_linked_signals (self w)) (<[name := s]> (signals (self w)))
       (members (self w)) (dependents (self w))).

(** [flexx.ws.send(msg)] *)
Definition ws_send (msg : string) (w : World) : World :=
  mkWorld (option_map (fun sent => sent ++ [msg]) (ws w)) (clock w) (self w).

(** [self[name]] as the object of a call [self[name]._set(...)]: a signal
    has the method; when [self[name]] is undefined the property access
    throws, and when it is a value that is no signal the call of the
    missing method does. *)
Definition get_signal (name : string) : M Signal :=
  fun w => match signals (self w) !! name with
           | Some s => (inr s, w)
           | None => (inl TypeError, w)
           end.

(** [self[name]._timestamp]: the timestamp of a signal; undefined for a
    property that holds a value but is no signal; when [self[name]] is
    undefined the property access throws. *)
Definition get_timestamp (name : string) : M (option Z) :=
  fun w => match signals (self w) !! name with
           | Some s => (inr (Some (_timestamp s)), w)
           | None => if bool_decide (name ∈ members (self w))
                     then (inr None, w)
                     else (inl TypeError, w)
           end.

Section WithSerializer.

(** [flexx.serializer.saves] and [flexx.serializer.loads]. *)
Variable saves : json -> string.
Variable loads : string -> option json.

(** The condition on line 326. *)
Definition is_synced (signal : Signal) : bool :=
  bool_decide (signal_type signal <> "PySignal")
  && negb (String.prefix "_" (_name signal)).

Definition signal_message (i : string) (signal : Signal) : string :=
  "SIGNAL " +:+ i +:+ " " +:+ _name signal +:+ " " +:+ saves (value signal).

(** [Pair.JS._signal_changed] *)
Definition _signal_changed (signal : Signal) : M unit :=
  let* w := get in
  match ws w with
  | None => ret tt
  | Some _ =>
      if _signal_emit_lock (self w) then modify (set_lock false)
      else if is_synced signal
           then modify (ws_send (signal_message (id (self w)) signal))
           else ret tt
  end.

(** Modelled from the spec: the reactive layer of [react], which is not in
    [pair.py].  A signal is "a named reactive cell with a current value, a
    monotonically increasing update timestamp and a set of dependents", a
    write "triggers the reactive layer's changed notification", and the
    layer "may cascade further signals, which are free to re-propagate".

    [react v d]: the dependent [d] of a signal that has got the value [v]
    is computed anew; it is stored with the timestamp of the clock, the
    owner's [_signal_changed] is called with it, and its own dependents
    follow.  A dependent that is no signal of the instance is passed
    over. *)
Fixpoint react (v : json) (d : Dependent) {struct d} : M unit :=
  match d with
  | Dep n f ds =>
      let* w := get in
      match signals (self w) !! n with
      | None => ret tt
      | Some s =>
          let s' := mkSignal (signal_type s) (_name s) (f v) (clock w) in
          let* _ := modify (set_signal n s') in
          let* _ := _signal_changed s' in
          (fix each (ds : list Dependent) : M unit :=
             match ds with
             | [] => ret tt
             | d' :: ds' => let* _ := react (f v) d' in each ds'
             end) ds
      end
  end.

Definition react_all (v : json) : list Dependent -> M unit :=
  fix each (ds : list Dependent) : M unit :=
    match ds with
    | [] => ret tt
    | d' :: ds' => let* _ := react v d' in each ds'
    end.

(** Modelled from the spec: [SourceSignal._set]: the value is stored, the
    timestamp is taken from the clock, the owner's [_signal_changed] is
    called with the signal, and then the dependents of the signal react. *)
Definition _set (name : string) (signal : Signal) (v : json) : M unit :=
  let* w := get in
  let signal' :=
    mkSignal (signal_type signal) (_name signal) v (clock w) in
  let* _ := modify (set_signal name signal') in
  let* _ := _signal_changed signal' in
  react_all v (default [] (dependents (self w) !! name)).

(** [Pair.JS._set_signal_from_py] *)
Definition _set_signal_from_py (name text : string) : M unit :=
  let* _ := modify (set_lock true) in
  let* v := match loads text with
            | Some v => ret v
            | None => throw DecodeError
            end in
  let* signal := get_signal name in
  _set name signal v.

(** [Pair.JS._link_js_signal] *)
Definition _link_js_signal (name : string) (link : bool) : M unit :=
  let* w := get in
  if link then
    let* _ := modify (set_linked (<[name := true]> (_linked_signals (self w)))) in
    let* timestamp := get_timestamp name in
    match timestamp with
    | Some t =>
        if bool_decide (t > 1)
        then (let* signal := get_signal name in _signal_changed signal)
        else ret tt
    | None => ret tt   (* undefined > 1 is false *)
    end
  else
    match _linked_signals (self w) !! name with
    | Some true => modify (set_linked (delete name (_linked_signals (self w))))
    | _ => ret tt
    end.

End WithSerializer.

(** [Pair.JS.__json__] *)
Definition __json__ (self : Instance) : list (string * json) :=
  [("__type__", VStr "Flexx-Pair"); ("id", VStr (id self))].

(** Calls made one after the other, as the runtime does for the commands
    that arrive; an exception ends the run. *)
Fixpoint run_all (calls : list (M unit)) : M unit :=
  match calls with
  | [] => ret tt
  | call :: rest => let* _ := call in run_all rest
  end.

End JS.

(** ** The Python side *)
Module Py.

(** Object identity of a Python object. *)
Definition loc : Type := positive.

(** A runtime proxy (the object whose [_exec] queues a command). *)
Definition proxy : Type := nat.

(** What a method hands to [proxy._exec], oldest first. *)
Definition Output : Type := list (proxy * string).

(** The signal classes that [isinstance] tells apart in [pair.py]. *)
Inductive SignalClass : Type :=
  | PlainSignal       (* react.Signal and the subclasses not named here *)
  | SourceSignal
  | InputSignal
  | JSSignal
  | PySignal
  | PyInputSignal.

Definition isinstance_JSSignal (c : SignalClass) : bool :=
  match c with JSSignal => true | _ => false end.

(** [PyInputSignal] derives from [PySignal]. *)
Definition isinstance_PySignal (c : SignalClass) : bool :=
  match c with PySignal | PyInputSignal => true | _ => false end.

Definition isinstance_InputSignal (c : SignalClass) : bool :=
  match c with InputSignal => true | _ => false end.

(** A signal object on the Python side; [_linked] is the attribute that
    [JSSignal.__init__] creates, [_downstream] the subscribers. *)
Record Signal : Type := mkSignal {
  name : string;
  class : SignalClass;
  value : json;
  _linked : bool;
  _downstream : list string
}.

(** A Pair object: [self._id], [self._proxy] and its signal instances. *)
Record Pair : Type := mkPair {
  _id : string;
  _proxy : proxy;
  signals : gmap string Signal
}.

(** The class-level state of [Pair] and the objects alive.  [_instances]
    is a [WeakValueDictionary]: see [collect]. *)
Record World : Type := mkWorld {
  _counter : N;
  _instances : gmap string loc;
  heap : gmap loc Pair;
  default_proxy : proxy    (* manager.get_default_proxy() *)
}.

(** What a class statement leaves for [__init__]: the class name and, for
    each entry of [__signals__], its class and (for a source with a default
    argument) its initial value. *)
Record Class : Type := mkClass {
  __name__ : string;
  __signals__ : list (string * SignalClass * option json)
}.

Inductive exn : Type :=
  | KeyError
  | TypeError.

(** [get_instance_by_id] *)
Definition get_instance_by_id (w : World) (id : string) : option loc :=
  _instances w !! id.

(** Garbage collection of the object at [l]: it leaves the heap, and the
    weak dictionary drops every entry whose value it was. *)
Definition collect (l : loc) (w : World) : World :=
  mkWorld (_counter w)
          (filter (fun kv => kv.2 <> l) (_instances w))
          (delete l (heap w))
          (default_proxy w).

(** [Pair.__json__] *)
Definition __json__ (self : Pair) : list (string * json) :=
  [("__type__", VStr "Flexx-Pair"); ("id", VStr (_id self))].

(** [Pair.__from_json__]: [dct['id']] raises [KeyError] when the key is
    missing; a key that is no string is never in the registry, and one that
    is not hashable makes [dict.get] raise. *)
Definition __from_json__ (w : World) (dct : list (string * json))
  : exn + option loc :=
  match dict_get "id" dct with
  | None => inl KeyError
  | Some (VStr i) => inr (get_instance_by_id w i)
  | Some (VList _) | Some (VDict _) => inl TypeError
  | Some _ => inr None
  end.

(** The last line of the module: [serializer.add_reviver('Flexx-Pair',
    Pair.__from_json__)]. *)
Definition revivers
  : list (string * (World -> list (string * json) -> exn + option loc)) :=
  [("Flexx-Pair", __from_json__)].

(** What decoding yields for a value: the value itself, or what a reviver
    made of it. *)
Inductive decoded : Type :=
  | Plain (v : json)
  | Revived (r : exn + option loc).

(** Modelled from the spec: the serializer's dispatch on decoding, which is
    in [serialize.py]: "a registered custom codec for Pair references",
    looked up by the type tag of the dictionary. *)
Definition revive (w : World) (v : json) : decoded :=
  match v with
  | VDict d =>
      match dict_get "__type__" d with
      | Some (VStr tag) =>
          match dict_get tag revivers with
          | Some f => Revived (f w d)
          | None => Plain v
          end
      | _ => Plain v
      end
  | _ => Plain v
  end.

(** Modelled from the spec: [react.SourceSignal._subscribe] and
    [_unsubscribe], the "subscribe, unsubscribe" capability of a signal:
    the subscriber joins, or leaves, the dependents. *)
Definition SourceSignal_subscribe (sub : string) (s : Signal) : Signal :=
  mkSignal (name s) (class s) (value s) (_linked s)
    (if bool_decide (sub ∈ _downstream s) then _downstream s
     else _downstream s ++ [sub]).

Definition SourceSignal_unsubscribe (sub : string) (s : Signal) : Signal :=
  mkSignal (name s) (class s) (value s) (_linked s)
    (filter (fun x => x <> sub) (_downstream s)).

(** [JSSignal.__init__] *)
Definition JSSignal__init__ (func_or_name : string) : Signal :=
  mkSignal func_or_name JSSignal VNone false [].

Section WithBuiltins.

(** The builtin [repr] on strings (the [%r] conversions) and
    [serializer.saves]. *)
Variable repr : string -> string.
Variable saves : json -> string.

(** [Pair._link_js_signal] *)
Definition _link_js_signal (self : Pair) (name : string) (link : bool)
  : Output :=
  let link := if link then "true" else "false" in
  let cmd := "flexx.instances." +:+ _id self +:+ "._link_js_signal("
             +:+ repr name +:+ ", " +:+ link +:+ ");" in
  [(_proxy self, cmd)].

(** [Pair._signal_changed] *)
Definition _signal_changed (self : Pair) (signal : Signal) : Output :=
  if negb (isinstance_JSSignal (class signal)) then
    let txt := saves (value signal) in
    let cmd := "flexx.instances." +:+ _id self +:+ "._set_signal_from_py("
               +:+ repr (name signal) +:+ ", " +:+ repr txt +:+ ");" in
    [(_proxy self, cmd)]
  else [].

(** [Pair.call_js] *)
Definition call_js (self : Pair) (call : string) : Output :=
  [(_proxy self, "flexx.instances." +:+ _id self +:+ "." +:+ call +:+ ";")].

(** [JSSignal._subscribe]; [owner] is [self.__self__]. *)
Definition _subscribe (owner : Pair) (sub : string) (self : Signal)
  : Signal * Output :=
  let self := SourceSignal_subscribe sub self in
  if negb (_linked self)
  then (self, _link_js_signal owner (name self) true)
  else (self, []).

(** [JSSignal._unsubscribe] *)
Definition _unsubscribe (owner : Pair) (sub : string) (self : Signal)
  : Signal * Output :=
  let self := SourceSignal_unsubscribe sub self in
  if _linked self && bool_decide (_downstream self = [])
  then (self, _link_js_signal owner (name self) false)
  else (self, []).

(** A history of a [JSSignal]: subscribers come and go; the commands that
    the calls execute are collected in order. *)
Definition subscription_step (owner : Pair) (acc : Signal * Output)
    (o : bool * string) : Signal * Output :=
  let r := if o.1 then _subscribe owner o.2 acc.1
           else _unsubscribe owner o.2 acc.1 in
  (r.1, acc.2 ++ r.2).

Definition subscriptions (owner : Pair) (history : list (bool * string))
    (self : Signal) : Signal * Output :=
  fold_left (subscription_step owner) history (self, []).

(** Modelled from the spec: [react.HasSignals.__init__], which "initializes
    all inherited+own signal instances (this may synchronously fire reactive
    cascades)": every declared signal becomes a signal object of the
    instance; one that has a value (a keyword argument, else its default)
    is set, and the owner's [_signal_changed] is called for it. *)
Definition init_signal (self : loc) (kwargs : list (string * json))
    (acc : World * Output) (decl : string * SignalClass * option json)
  : World * Output :=
  let '(w, out) := acc in
  let '(n, c, dflt) := decl in
  let v := match dict_get n kwargs with
           | Some v => Some v
           | None => dflt
           end in
  match heap w !! self with
  | None => acc
  | Some ob =>
      let s := mkSignal n c (default VNone v) false [] in
      let ob' := mkPair (_id ob) (_proxy ob) (<[n := s]> (signals ob)) in
      (mkWorld (_counter w) (_instances w) (<[self := ob']> (heap w))
               (default_proxy w),
       out ++ (if v is Some _ then _signal_changed ob' s else []))
  end.

Definition HasSignals__init__ (cls : Class) (self : loc)
    (kwargs : list (string * json)) (w : World) : World * Output :=
  fold_left (init_signal self kwargs) (__signals__ cls) (w, []).

(** The hook [Pair._init], which a subclass may overload: any code, with
    the commands it has executed. *)
Variable _init : loc -> World -> World * Output.

(** [Pair.__init__]; [self] is the object that [__new__] has allocated. *)
Definition __init__ (cls : Class) (self : loc) (proxy_arg : option proxy)
    (kwargs : list (string * json)) (w : World) : World * Output :=
  (* Set id and register this instance *)
  let counter := (_counter w + 1)%N in
  let i := __name__ cls +:+ pretty counter in
  (* Init proxy *)
  let p := default (default_proxy w) proxy_arg in
  let w1 := mkWorld counter (<[i := self]> (_instances w))
                    (<[self := mkPair i p ∅]> (heap w)) (default_proxy w) in
  (* Instantiate JavaScript version of this class *)
  let clsname := "flexx.classes." +:+ __name__ cls in
  let cmd := "flexx.instances." +:+ i +:+ " = new " +:+ clsname
             +:+ "(" +:+ repr i +:+ ");" in
  let out1 := [(p, cmd)] in
  let '(w2, out2) := _init self w1 in
  (* Init signals *)
  let '(w3, out3) := HasSignals__init__ cls self kwargs w2 in
  (w3, out1 ++ out2 ++ out3).

(** A constructor call [cls(_proxy, **kwargs)]: a new object, then
    [__init__]. *)
Definition new (cls : Class) (proxy_arg : option proxy)
    (kwargs : list (string * json)) (w : World) : loc * (World * Output) :=
  let self := fresh (dom (heap w)) in
  (self, __init__ cls self proxy_arg kwargs w).

End WithBuiltins.

(** [Pair._init] as the base class has it: [pass]. *)
Definition _init_pass (self : loc) (w : World) : World * Output := (w, []).

(** Constructor calls [cls()] one after the other, for classes that keep
    the hook of the base class; the objects are returned in order. *)
Fixpoint construct_each (repr : string -> string) (saves : json -> string)
    (classes : list Class) (w : World) : list loc * World :=
  match classes with
  | [] => ([], w)
  | cls :: rest =>
      let r := new repr saves _init_pass cls None [] w in
      let rs := construct_each repr saves rest r.2.1 in
      (r.1 :: rs.1, rs.2)
  end.

End Py.

(** ** Class creation: the proxy loops of [PairMeta.__init__] *)
Module Meta.

(** An attribute of a class: a signal object, or anything else (a method,
    a constant, a nested class), of which only a description is kept. *)
Inductive Attr : Type :=
  | ASignal (c : Py.SignalClass)
  | AOther (what : string).

(** [isinstance(val, react.Signal)] *)
Definition is_Signal (val : Attr) : bool :=
  match val with ASignal _ => true | AOther _ => false end.

Definition is_JSSignal (val : Attr) : bool :=
  match val with ASignal c => Py.isinstance_JSSignal c | AOther _ => false end.

Definition is_PySignal (val : Attr) : bool :=
  match val with ASignal c => Py.isinstance_PySignal c | AOther _ => false end.

Definition is_InputSignal (val : Attr) : bool :=
  match val with ASignal c => Py.isinstance_InputSignal c | AOther _ => false end.

(** A class namespace [__dict__], in the order [items()] yields it. *)
Definition Dict : Type := list (string * Attr).

(** [setattr] on a class: the binding is replaced where the name is bound,
    else added. *)
Fixpoint setattr (name : string) (val : Attr) (d : Dict) : Dict :=
  match d with
  | [] => [(name, val)]
  | (k, v) :: rest =>
      if decide (k = name) then (k, val) :: rest
      else (k, v) :: setattr name val rest
  end.

(** [getattr] on a class: its own namespace, then what the bases give. *)
Definition getattr (own inherited : Dict) (name : string) : option Attr :=
  match dict_get name own with
  | Some v => Some v
  | None => dict_get name inherited
  end.

(** A class statement as [PairMeta.__init__] receives it, after
    [HasSignalsMeta.__init__]: the namespace of the class (in which a nested
    [class JS] is a member like any other; its own namespace is [JS_body]),
    what [hasattr(cls, _)] finds through the bases, [cls.__signals__], the
    body of the nested [class JS] when there is one, and what the [JS]
    classes of the bases give. *)
Record ClassDef : Type := mkClassDef {
  cls__dict__ : Dict;
  cls_inherited : Dict;
  cls__signals__ : list string;
  JS_body : option Dict;
  JS_inherited : Dict
}.

(** What [PairMeta.__init__] makes of the class.  [out__dict__] and
    [out__signals__] are the namespace and [__signals__] of the class after
    the loop over the JS signals (lines 102-110); [out_JS__dict__] is the
    namespace of the composed class [JS] after the loop over the Python
    signals (lines 127-137); [printed] is what was printed;
    [cls_namespace] and [JS_namespace] are the namespaces of the class and
    of [cls.JS] when [__init__] returns, after the assignments of
    [cls.JS] (line 124), [cls.JS.CODE] (line 140) and [cls.CSS]
    (line 141). *)
Record ClassOut : Type := mkClassOut {
  out__dict__ : Dict;
  out__signals__ : list string;
  out_JS__dict__ : Dict;
  printed : list string;
  cls_namespace : Dict;
  JS_namespace : Dict
}.

Definition OK_MAGICS : list string := ["__init__"; "__json__"; "__from_json__"].

Section WithRepr.

Variable repr : string -> string.

Definition warn_JS (name : string) : string :=
  "Warning: JS signal " +:+ repr name
  +:+ " not proxied, as it would hide a Py attribute.".

Definition warn_Py (name : string) : string :=
  "Warning: Py signal " +:+ repr name
  +:+ " not proxied, as it would hide a JS attribute.".

(** One turn of the loop on lines 102-110. *)
Definition proxy_JS_signal (inherited : Dict)
    (st : Dict * list string * list string) (item : string * Attr)
  : Dict * list string * list string :=
  let '(d, sigs, out) := st in
  let '(name, val) := item in
  if is_Signal val && negb (is_PySignal val) then
    match getattr d inherited name with
    | None => (setattr name (ASignal Py.JSSignal) d, sigs ++ [name], out)
    | Some a => if is_JSSignal a then st
                else (d, sigs, out ++ [warn_JS name])
    end
  else st.

(** One turn of the loop on lines 119-123. *)
Definition copy_JS_member (JS : Dict) (item : string * Attr) : Dict :=
  let '(name, val) := item in
  if negb (String.prefix "__" name) then setattr name val JS
  else if bool_decide (name ∈ OK_MAGICS) then setattr name val JS
  else JS.

(** Lines 113-124: the fresh class [JS] and what is copied into it. *)
Definition compose_JS (body : option Dict) : Dict :=
  match body with
  | None => []
  | Some b =>
      let JS := match dict_get "__init__" b with
                | Some f => setattr "__init__" f []
                | None => []
                end in
      fold_left copy_JS_member b JS
  end.

(** One turn of the loop on lines 127-137. *)
Definition proxy_Py_signal (inherited : Dict)
    (st : Dict * list string) (item : string * Attr) : Dict * list string :=
  let '(JS, out) := st in
  let '(name, val) := item in
  if is_Signal val && negb (is_JSSignal val) then
    match getattr JS inherited name with
    | None =>
        if is_InputSignal val
        then (setattr name (ASignal Py.PyInputSignal) JS, out)
        else (setattr name (ASignal Py.PySignal) JS, out)
    | Some a => if is_PySignal a then st
                else (JS, out ++ [warn_Py name])
    end
  else st.

(** [PairMeta.__init__], lines 100-141.  The member that [cls.JS = JS]
    binds is a class, no signal: the loop on line 127 passes over the entry
    ['JS'] whichever class it holds, so the assignment is entered in the
    namespace at the end.  Of the text that [_get_js] generates
    (line 140) and of the CSS (line 141) the description of a string is
    kept, as for any member that is no signal; [cls.__dict__.get('CSS',
    '')] is the own CSS of the class when it has one. *)
Definition PairMeta__init__ (c : ClassDef) : ClassOut :=
  let '(d, sigs, out) :=
    match JS_body c with
    | Some body =>
        fold_left (proxy_JS_signal (cls_inherited c)) body
                  (cls__dict__ c, cls__signals__ c, [])
    | None => (cls__dict__ c, cls__signals__ c, [])
    end in
  let JS := compose_JS (JS_body c) in
  let '(JS, out) :=
    fold_left (proxy_Py_signal (JS_inherited c)) d (JS, out) in
  let CSS := default (AOther "str") (dict_get "CSS" d) in
  mkClassOut d sigs JS out
    (setattr "CSS" CSS (setattr "JS" (AOther "class") d))
    (setattr "CODE" (AOther "str") JS).

End WithRepr.

End Meta.

(** ** Concrete objects used by the examples *)
Module Sample.

(** A stand-in for the serializer: text for integers and strings. *)
Definition saves (v : json) : string :=
  match v with
  | VInt z => pretty z
  | VStr s => s
  | VBool true => "true"
  | VBool false => "false"
  | _ => "null"
  end.

Definition loads (text : string) : option json :=
  if decide (text = "") then None else Some (VStr text).

(** A stand-in for [repr]: the text between single quotes. *)
Definition repr (s : string) : string := "'" +:+ s +:+ "'".

(** A JS instance with a public source signal [count], set once, a private
    source signal [_pos], set once, a public signal [size] that was never
    set, and the proxy [title] of a Python signal. *)
Definition count : JS.Signal := JS.mkSignal "SourceSignal" "count" (VInt 3) 1446000000.
Definition _pos : JS.Signal := JS.mkSignal "SourceSignal" "_pos" (VInt 7) 1446000001.
Definition size : JS.Signal := JS.mkSignal "SourceSignal" "size" VNone 0.
Definition title : JS.Signal := JS.mkSignal "PySignal" "title" (VStr "hi") 1446000002.

Definition widget : JS.Instance :=
  JS.mkInstance "Widget1" false ∅
    (<["count" := count]> (<["_pos" := _pos]> (<["size" := size]>
       (<["title" := title]> ∅))))
    {["id"; "_id"; "_linked_signals"; "_init"; "_set_signal_from_py";
      "_signal_changed"; "_link_js_signal"]}
    ∅.

Definition js_world : JS.World := JS.mkWorld (Some []) 1446000010 widget.

(** A stand-in for the decoder that reads decimal integers. *)
Definition loads_int (text : string) : option json :=
  VInt <$> (Z.of_int <$> NilZero.int_of_string text).

(** A JS instance with a source signal [count] and a signal [double] that
    is computed from it. *)
Definition twice (v : json) : json :=
  match v with
  | VInt z => VInt (2 * z)
  | _ => v
  end.

Definition double : JS.Signal := JS.mkSignal "Signal" "double" (VInt 6) 1446000000.

Definition counter : JS.Instance :=
  JS.mkInstance "Counter1" false ∅
    (<["count" := count]> (<["double" := double]> ∅))
    {["id"; "_id"; "_linked_signals"; "_init"]}
    {["count" := [JS.Dep "double" twice []]]}.

Definition counter_world : JS.World :=
  JS.mkWorld (Some []) 1446000010 counter.

(** The Python half of the widget, and its proxy of the JS signal
    [count]. *)
Definition owner : Py.Pair := Py.mkPair "Widget1" 0%nat ∅.
Definition count_proxy : Py.Signal := Py.JSSignal__init__ "count".
Definition title_py : Py.Signal := Py.mkSignal "title" Py.InputSignal (VStr "hi") false [].

(** A process in which no Pair was made yet. *)
Definition py_world : Py.World := Py.mkWorld 0%N ∅ ∅ 0%nat.

(** [class Counter(Pair)] with an input signal [count] that starts at 0,
    and two classes without signals whose names differ by a digit. *)
Definition Counter : Py.Class :=
  Py.mkClass "Counter" [("count", Py.InputSignal, Some (VInt 0))].
Definition A : Py.Class := Py.mkClass "A" [].
Definition A1 : Py.Class := Py.mkClass "A1" [].

(** The constructor calls [cls()] for the classes of a list, in order,
    with the objects they return. *)
Definition construct_all (classes : list Py.Class) (w : Py.World)
  : list Py.loc * Py.World :=
  fold_left
    (fun (acc : list Py.loc * Py.World) cls =>
       let r := Py.new repr saves Py._init_pass cls None [] acc.2 in
       (acc.1 ++ [r.1], r.2.1))
    classes ([], w).

(** [class Panel(Pair)]: a Python input signal [title] and a Python signal
    [size]; the nested [class JS] has a signal [pos], a method [size] and a
    signal [resize]; the Python bases give a method [resize], the [JS]
    classes of the bases give a method [title]. *)
Definition Panel : Meta.ClassDef :=
  Meta.mkClassDef
    [("title", Meta.ASignal Py.InputSignal); ("JS", Meta.AOther "class");
     ("size", Meta.ASignal Py.SourceSignal)]
    [("resize", Meta.AOther "method"); ("_init", Meta.AOther "method")]
    ["title"; "size"]
    (Some [("__module__", Meta.AOther "str");
           ("pos", Meta.ASignal Py.SourceSignal);
           ("size", Meta.AOther "method");
           ("resize", Meta.ASignal Py.SourceSignal)])
    [("title", Meta.AOther "method"); ("_init", Meta.AOther "method")].

(** [class Button(Pair)]: an input signal [text] and a method; the nested
    [class JS] has a constructor, a docstring, a signal [pressed] and a
    method. *)
Definition Button : Meta.ClassDef :=
  Meta.mkClassDef
    [("text", Meta.ASignal Py.InputSignal); ("on_click", Meta.AOther "method");
     ("JS", Meta.AOther "class")]
    [("_init", Meta.AOther "method")]
    ["text"]
    (Some [("__doc__", Meta.AOther "str");
           ("__init__", Meta.AOther "method");
           ("pressed", Meta.ASignal Py.SourceSignal);
           ("_render", Meta.AOther "method")])
    [("_init", Meta.AOther "method")].

(** [class Submit(Button)] states the signal [text] again and has no nested
    [class JS]; the bases give the proxies. *)
Definition Submit : Meta.ClassDef :=
  Meta.mkClassDef
    [("text", Meta.ASignal Py.InputSignal)]
    [("on_click", Meta.AOther "method"); ("pressed", Meta.ASignal Py.JSSignal)]
    ["text"; "pressed"]
    None
    [("__init__", Meta.AOther "method");
     ("pressed", Meta.ASignal Py.SourceSignal);
     ("text", Meta.ASignal Py.PyInputSignal)].

End Sample.

(** * Properties of the JS side *)
Module JSFacts.
Import JS.

Section WithSerializer.

Variable saves : json -> string.
Variable loads : string -> option json.

(** The four ways through [_signal_changed]. *)
Lemma signal_changed_offline (signal : Signal) (w : World) :
  ws w = None -> _signal_changed saves signal w = (inr tt, w).
Proof. intros Hws. unfold _signal_changed, bind, get. by rewrite Hws. Qed.

Lemma signal_changed_locked (signal : Signal) (w : World) :
  is_Some (ws w) -> _signal_emit_lock (self w) = true ->
  _signal_changed saves signal w = (inr tt, set_lock false w).
Proof.
  intros [sent Hws] Hlock. unfold _signal_changed, bind, get.
  by rewrite Hws, Hlock.
Qed.

Lemma signal_changed_synced (signal : Signal) (w : World) :
  is_Some (ws w) -> _signal_emit_lock (self w) = false ->
  is_synced signal = true ->
  _signal_changed saves signal w
  = (inr tt, ws_send (signal_message saves (id (self w)) signal) w).
Proof.
  intros [sent Hws] Hlock Hsync. unfold _signal_changed, bind, get.
  by rewrite Hws, Hlock, Hsync.
Qed.

Lemma signal_changed_skipped (signal : Signal) (w : World) :
  _signal_emit_lock (self w) = false -> is_synced signal = false ->
  _signal_changed saves signal w = (inr tt, w).
Proof.
  intros Hlock Hsync. unfold _signal_changed, bind, get.
  destruct (ws w); [|done]. by rewrite Hlock, Hsync.
Qed.

Lemma is_synced_false (signal : Signal) :
  String.prefix "_" (_name signal) = true \/ signal_type signal = "PySignal" ->
  is_synced signal = false.
Proof.
  intros [Hp | Ht]; unfold is_synced.
  - rewrite Hp. apply andb_false_r.
  - rewrite Ht. by rewrite bool_decide_eq_false_2 by (intros H; by apply H).
Qed.

(** [_signal_changed] never throws, and never touches the signals or the
    linked set. *)
Lemma signal_changed_frame (signal : Signal) (w : World) :
  let r := _signal_changed saves signal w in
  r.1 = inr tt
  /\ signals (self r.2) = signals (self w)
  /\ _linked_signals (self r.2) = _linked_signals (self w)
  /\ id (self r.2) = id (self w).
Proof.
  unfold _signal_changed, bind, get. simpl.
  destruct (ws w) as [sent|]; [|done].
  destruct (_signal_emit_lock (self w)); [done|].
  by destruct (is_synced signal).
Qed.

(** C10.  On the JS side a changed signal whose name starts with an
    underscore, or whose [signal_type] is ['PySignal'], never leads to a
    SIGNAL message: the socket is left as it was, whatever the instance has
    in [_linked_signals] (and whatever the lock is). *)
Theorem private_or_proxy_signal_never_pushed (signal : Signal) (w : World) :
  String.prefix "_" (_name signal) = true \/ signal_type signal = "PySignal" ->
  (_signal_changed saves signal w).1 = inr tt
  /\ ws (_signal_changed saves signal w).2 = ws w.
Proof.
  intros Hpriv. apply is_synced_false in Hpriv.
  unfold _signal_changed, bind, get. simpl.
  destruct (ws w) as [sent|] eqn:Hws; [|done].
  destruct (_signal_emit_lock (self w)); simpl; [done|].
  rewrite Hpriv. done.
Qed.

(** What [_set] does once the signal is found. *)
Lemma set_unfold (name : string) (signal : Signal) (v : json) (w : World) :
  _set saves name signal v w
  = bind (_signal_changed saves
            (mkSignal (signal_type signal) (_name signal) v (clock w)))
         (fun _ => react_all saves v
                     (default [] (dependents (self w) !! name)))
         (set_signal name
            (mkSignal (signal_type signal) (_name signal) v (clock w)) w).
Proof. reflexivity. Qed.

Lemma set_signal_from_py_unfold (name text : string) (v : json)
    (signal : Signal) (w : World) :
  loads text = Some v -> signals (self w) !! name = Some signal ->
  _set_signal_from_py saves loads name text w
  = _set saves name signal v (set_lock true w).
Proof.
  intros Hv Hs. unfold _set_signal_from_py, bind, modify, get_signal, ret.
  rewrite Hv. simpl. by rewrite Hs.
Qed.

(** A dependent without dependents of its own, on a connected instance
    whose lock is clear: it is stored with its new value, and sent when it
    is synced. *)
Lemma react_leaf (v : json) (n : string) (f : json -> json)
    (dependent : Signal) (w : World) :
  signals (self w) !! n = Some dependent ->
  is_Some (ws w) ->
  _signal_emit_lock (self w) = false ->
  is_synced dependent = true ->
  let changed :=
    mkSignal (signal_type dependent) (_name dependent) (f v) (clock w) in
  react saves v (Dep n f []) w
  = (inr tt,
     ws_send (signal_message saves (id (self w)) changed)
       (set_signal n changed w)).
Proof.
  intros Hs Hws Hlock Hsync changed. simpl. unfold bind at 1, get.
  rewrite Hs. unfold bind at 1, modify. unfold bind.
  by rewrite signal_changed_synced.
Qed.

(** C1, as the code has it.  An apply-command for an existing signal on a
    connected instance: the lock is set first, so that the assignment runs
    under it; the value is stored; the notification of the applied signal
    sends nothing and clears the lock; the signals that depend on the
    applied one react after that, in a world where the lock is clear and
    the socket is as it was.  Without dependents nothing is sent at all,
    and the lock was spent on that one notification: the next change of a
    synced signal is sent.  With a dependent that is a synced signal, the
    new value of the dependent is sent. *)
Theorem echo_suppressed_once (name text : string) (v : json)
    (signal : Signal) (sent : list string) (w : World) :
  loads text = Some v ->
  signals (self w) !! name = Some signal ->
  ws w = Some sent ->
  let r := _set_signal_from_py saves loads name text w in
  let applied := mkSignal (signal_type signal) (_name signal) v (clock w) in
  let reactions := default [] (dependents (self w) !! name) in
  let w1 := set_lock false (set_signal name applied w) in
  r = _set saves name signal v (set_lock true w)
  /\ _signal_changed saves applied (set_signal name applied (set_lock true w))
     = (inr tt, w1)
  /\ ws w1 = Some sent
  /\ signals (self w1) !! name = Some applied
  /\ r = react_all saves v reactions w1
  /\ (reactions = [] ->
      r = (inr tt, w1)
      /\ forall next : Signal,
           is_synced next = true ->
           _signal_changed saves next r.2
           = (inr tt, ws_send (signal_message saves (id (self w)) next) w1))
  /\ (forall n f dependent,
       reactions = [Dep n f []] ->
       n <> name ->
       signals (self w) !! n = Some dependent ->
       is_synced dependent = true ->
       let changed :=
         mkSignal (signal_type dependent) (_name dependent) (f v) (clock w) in
       r.1 = inr tt
       /\ ws r.2 = Some (sent ++ [signal_message saves (id (self w)) changed])
       /\ _signal_emit_lock (self r.2) = false).
Proof.
  intros Hv Hs Hws r applied reactions w1.
  assert (Hnote : _signal_changed saves applied
                    (set_signal name applied (set_lock true w))
                  = (inr tt, w1)).
  { rewrite signal_changed_locked; [done|simpl; rewrite Hws; by eexists|done]. }
  assert (Hr : r = react_all saves v reactions w1).
  { subst r. rewrite (set_signal_from_py_unfold name text v signal w Hv Hs).
    rewrite set_unfold. unfold bind. simpl clock. fold applied.
    by rewrite Hnote. }
  split; [by apply set_signal_from_py_unfold|].
  split; [done|]. split; [done|]. split; [apply lookup_insert_eq|].
  split; [done|]. split.
  - intros Hnone. rewrite Hr, Hnone. split; [done|].
    intros next Hnext. simpl.
    rewrite signal_changed_synced; [done|simpl; rewrite Hws; by eexists|done..].
  - intros n f dependent Hone Hn Hdep Hsync changed.
    rewrite Hr, Hone.
    change (react_all saves v [Dep n f []] w1)
      with (bind (react saves v (Dep n f [])) (fun _ => ret tt) w1).
    unfold bind.
    rewrite (react_leaf v n f dependent w1);
      [|simpl; by rewrite lookup_insert_ne|simpl; rewrite Hws; by eexists
       |done..].
    simpl. by rewrite Hws.
Qed.

(** Without a socket the notification returns before it reads the lock:
    the lock that the apply-command has set stays set. *)
Lemma apply_offline_keeps_lock (name text : string) (v : json)
    (signal : Signal) (w : World) :
  loads text = Some v ->
  signals (self w) !! name = Some signal ->
  dependents (self w) !! name = None ->
  ws w = None ->
  _signal_emit_lock
    (self (_set_signal_from_py saves loads name text w).2) = true.
Proof.
  intros Hv Hs Hd Hws.
  rewrite (set_signal_from_py_unfold name text v signal w Hv Hs), set_unfold.
  unfold bind. rewrite signal_changed_offline by done. simpl. by rewrite Hd.
Qed.

(** The lock is one boolean: a second apply-command before the first is
    spent leaves a single pending suppression. *)
Lemma lock_is_single_slot (b : bool) (w : World) :
  set_lock true (set_lock b w) = set_lock true w.
Proof. reflexivity. Qed.

(** C7, as the code has it.  An apply-command that names no signal of the
    instance: the lock is set, the text is decoded, and the lookup of the
    signal raises; the exception reaches the caller, nothing is sent and no
    signal changes, but the lock stays set. *)
Theorem unknown_signal_raises (name text : string) (v : json) (w : World) :
  loads text = Some v ->
  signals (self w) !! name = None ->
  _set_signal_from_py saves loads name text w
  = (inl TypeError, set_lock true w).
Proof.
  intros Hv Hs. unfold _set_signal_from_py, bind, modify, get_signal, ret.
  rewrite Hv. simpl. by rewrite Hs.
Qed.

(** What [_link_js_signal] does for [link = true] on an existing signal. *)
Lemma link_js_signal_unfold (name : string) (signal : Signal) (w : World) :
  signals (self w) !! name = Some signal ->
  _link_js_signal saves name true w
  = if bool_decide (_timestamp signal > 1)
    then _signal_changed saves signal
           (set_linked (<[name := true]> (_linked_signals (self w))) w)
    else (inr tt, set_linked (<[name := true]> (_linked_signals (self w))) w).
Proof.
  intros Hs.
  unfold _link_js_signal, bind, get, modify, get_timestamp, get_signal. simpl.
  rewrite Hs. destruct (bool_decide (_timestamp signal > 1)); [|done].
  simpl. by rewrite Hs.
Qed.

(** C4, as the code has it.  A link notification for an existing signal
    marks it as linked and never throws.  When the timestamp of the signal
    is above 1, [_signal_changed] is called once with the signal as it is:
    on a connected instance whose lock is clear, and for a synced signal,
    exactly one message with the current value is sent; without a socket,
    with the lock set, or for a signal that is not synced, nothing is sent.  When the timestamp
    is at most 1 (the value was never set), nothing is sent. *)
Theorem link_catch_up (name : string) (signal : Signal) (w : World) :
  signals (self w) !! name = Some signal ->
  let r := _link_js_signal saves name true w in
  r.1 = inr tt
  /\ _linked_signals (self r.2) !! name = Some true
  /\ (_timestamp signal > 1 ->
      _signal_emit_lock (self w) = false ->
      is_synced signal = true ->
      forall sent, ws w = Some sent ->
      ws r.2 = Some (sent ++ [signal_message saves (id (self w)) signal]))
  /\ (_timestamp signal > 1 ->
      ws w = None \/ _signal_emit_lock (self w) = true
      \/ is_synced signal = false ->
      ws r.2 = ws w)
  /\ (_timestamp signal <= 1 -> ws r.2 = ws w).
Proof.
  intros Hs r. subst r. rewrite (link_js_signal_unfold name signal w Hs).
  set (w1 := set_linked (<[name := true]> (_linked_signals (self w))) w).
  destruct (signal_changed_frame signal w1) as (Hok & _ & Hlinked & _).
  case_bool_decide as Hts.
  - split; [done|]. split; [rewrite Hlinked; apply lookup_insert_eq|].
    split; [|split; [|lia]].
    + intros _ Hlock Hsync sent Hws.
      rewrite signal_changed_synced; [|simpl; rewrite Hws; by eexists|done|done].
      simpl. by rewrite Hws.
    + intros _ Hquiet. subst w1.
      unfold _signal_changed, bind, get. simpl.
      destruct (ws w) eqn:Hws; [|done].
      destruct (_signal_emit_lock (self w)); [done|].
      destruct Hquiet as [Hoff | [Hlock | Hsync]]; [done..|]. by rewrite Hsync.
  - simpl. split; [done|]. split; [apply lookup_insert_eq|].
    split; [lia|]. split; [lia|done].
Qed.

End WithSerializer.

(** The statement of C1 at two instances: the widget, on whose [count]
    nothing depends, and the counter, whose [double] is computed from
    [count]. *)
Lemma echo_suppressed_once_witness :
  let r := _set_signal_from_py Sample.saves Sample.loads "count" "5"
             Sample.js_world in
  let r' := _set_signal_from_py Sample.saves Sample.loads_int "count" "5"
              Sample.counter_world in
  (r.1 = inr tt /\ ws r.2 = Some [] /\ _signal_emit_lock (self r.2) = false)
  /\ (r'.1 = inr tt /\ ws r'.2 = Some ["SIGNAL Counter1 double 10"]
      /\ _signal_emit_lock (self r'.2) = false).
Proof.
  split.
  - destruct (echo_suppressed_once Sample.saves Sample.loads "count" "5"
                (VStr "5") Sample.count [] Sample.js_world)
      as (_ & _ & _ & _ & _ & H & _); [reflexivity..|].
    destruct (H eq_refl) as [-> _]. by repeat split.
  - destruct (echo_suppressed_once Sample.saves Sample.loads_int "count" "5"
                (VInt 5) Sample.count [] Sample.counter_world)
      as (_ & _ & _ & _ & _ & _ & H); [reflexivity..|].
    apply (H "double" Sample.twice Sample.double);
      [reflexivity | discriminate | reflexivity..].
Defined.

(** C1 as stated fails where the applied signal has a dependent: the
    counter is connected, its lock is clear and nothing was sent; the
    apply-command for [count] sets [count] to 5, the signal [double] that
    is computed from it becomes 10, and that change is sent: a message goes
    out as a consequence of the apply-command. *)
Lemma apply_with_dependent_sends :
  let w := Sample.counter_world in
  let r := _set_signal_from_py Sample.saves Sample.loads_int "count" "5" w in
  ws w = Some []
  /\ _signal_emit_lock (self w) = false
  /\ r.1 = inr tt
  /\ value <$> signals (self r.2) !! "count" = Some (VInt 5)
  /\ value <$> signals (self r.2) !! "double" = Some (VInt 10)
  /\ ws r.2 = Some ["SIGNAL Counter1 double 10"]
  /\ ws r.2 <> ws w.
Proof. by vm_compute. Qed.

Lemma private_or_proxy_signal_never_pushed_witness :
  ws (_signal_changed Sample.saves Sample._pos Sample.js_world).2 = Some [].
Proof.
  apply (private_or_proxy_signal_never_pushed Sample.saves Sample._pos
           Sample.js_world).
  left. reflexivity.
Defined.

(** C7 as stated fails: the widget has no signal [nope], and an
    apply-command for that name is not dropped (no exception, the instance
    left as it was): it throws, and leaves the lock set. *)
Lemma unknown_signal_not_dropped :
  let r := _set_signal_from_py Sample.saves Sample.loads "nope" "5"
             Sample.js_world in
  signals (self Sample.js_world) !! "nope" = None
  /\ ~ (r.1 = inr tt /\ r.2 = Sample.js_world)
  /\ r.1 = inl TypeError
  /\ _signal_emit_lock (self Sample.js_world) = false
  /\ _signal_emit_lock (self r.2) = true.
Proof.
  split; [reflexivity|]. split; [|by vm_compute].
  intros [H _]. vm_compute in H. discriminate H.
Qed.

Lemma unknown_signal_raises_witness :
  _set_signal_from_py Sample.saves Sample.loads "nope" "5" Sample.js_world
  = (inl TypeError, set_lock true Sample.js_world).
Proof.
  apply (unknown_signal_raises Sample.saves Sample.loads "nope" "5" (VStr "5")
           Sample.js_world); reflexivity.
Defined.

(** C4 as stated fails for the private signal [_pos] of the widget: it is
    not linked, its timestamp is nonzero (its value was set), the instance
    is connected and the lock is clear; the notification links it and no
    message is sent, where the claim has one message with the value. *)
Lemma link_private_signal_no_catch_up :
  let w := Sample.js_world in
  let r := _link_js_signal Sample.saves "_pos" true w in
  signals (self w) !! "_pos" = Some Sample._pos
  /\ _timestamp Sample._pos <> 0
  /\ _linked_signals (self w) !! "_pos" = None
  /\ _linked_signals (self r.2) !! "_pos" = Some true
  /\ ws w = Some []
  /\ ws r.2 = Some []
  /\ ws r.2 <> Some ([] ++ [signal_message Sample.saves (id (self w))
                                           Sample._pos]).
Proof. by vm_compute. Qed.

Lemma link_catch_up_witness :
  ws (_link_js_signal Sample.saves "count" true Sample.js_world).2
  = Some ["SIGNAL Widget1 count 3"].
Proof.
  destruct (link_catch_up Sample.saves "count" Sample.count Sample.js_world)
    as (_ & _ & H & _); [reflexivity|].
  apply (H ltac:(reflexivity) eq_refl eq_refl [] eq_refl).
Defined.

End JSFacts.

(** * Properties of the Python side *)
Module PyFacts.
Import Py.

Section WithBuiltins.

Variable repr : string -> string.
Variable saves : json -> string.

(** C3.  A change of a signal of a Pair: nothing is executed for a
    [JSSignal]; for any other signal exactly one command goes to the proxy
    of the instance, the call of [_set_signal_from_py] on the JS instance
    of the same id, with the name of the signal and the text that the
    serializer makes of its value.  The output is all there is: nothing is
    read back. *)
Theorem signal_changed_sends_one_apply (self : Pair) (signal : Signal) :
  (class signal = JSSignal -> _signal_changed repr saves self signal = [])
  /\ (class signal <> JSSignal ->
      _signal_changed repr saves self signal
      = [(_proxy self,
          "flexx.instances." +:+ _id self +:+ "._set_signal_from_py("
          +:+ repr (name signal) +:+ ", " +:+ repr (saves (value signal))
          +:+ ");")]).
Proof.
  unfold _signal_changed. split; intros Hc.
  - by rewrite Hc.
  - by destruct (class signal).
Qed.

(** Neither [_subscribe] nor [_unsubscribe] writes [_linked]: the
    attribute keeps the value that [JSSignal.__init__] gave it. *)
Lemma subscribe_keeps_linked (owner : Pair) (sub : string) (s : Signal) :
  _linked (_subscribe repr owner sub s).1 = _linked s.
Proof. unfold _subscribe. by case (negb _). Qed.

Lemma unsubscribe_keeps_linked (owner : Pair) (sub : string) (s : Signal) :
  _linked (_unsubscribe repr owner sub s).1 = _linked s.
Proof. unfold _unsubscribe. by case (_ && _). Qed.

(** So every subscription to a fresh [JSSignal] sends a link command,
    whatever the number of subscribers, and no unsubscription sends
    anything. *)
Lemma subscribe_unlinked_links (owner : Pair) (sub : string) (s : Signal) :
  _linked s = false ->
  (_subscribe repr owner sub s).2 = _link_js_signal repr owner (name s) true.
Proof. intros H. unfold _subscribe. simpl. by rewrite H. Qed.

Lemma unsubscribe_unlinked_silent (owner : Pair) (sub : string) (s : Signal) :
  _linked s = false -> (_unsubscribe repr owner sub s).2 = [].
Proof. intros H. unfold _unsubscribe. simpl. by rewrite H. Qed.

(** Over any history of a signal that starts unlinked, the code executes
    one link command for each subscription and nothing else. *)
Lemma subscriptions_from (owner : Pair) (history : list (bool * string))
    (acc : Signal * Output) :
  _linked acc.1 = false ->
  let r := fold_left (subscription_step repr owner) history acc in
  _linked r.1 = false
  /\ name r.1 = name acc.1
  /\ r.2 = acc.2 ++ flat_map (fun o : bool * string =>
                if o.1 then _link_js_signal repr owner (name acc.1) true
                else []) history.
Proof.
  revert acc. induction history as [|[[] sub] history IH]; intros acc Hl; simpl.
  - by rewrite app_nil_r.
  - destruct (IH (subscription_step repr owner acc (true, sub))) as (H1 & H2 & H3).
    { simpl. by rewrite subscribe_keeps_linked. }
    split; [done|]. unfold subscription_step in *. simpl in *.
    rewrite subscribe_unlinked_links in * by done.
    assert (Hn : name (_subscribe repr owner sub acc.1).1 = name acc.1).
    { unfold _subscribe. by case (negb _). }
    rewrite Hn in *. split; [done|]. by rewrite H3, <- app_assoc.
  - destruct (IH (subscription_step repr owner acc (false, sub))) as (H1 & H2 & H3).
    { simpl. by rewrite unsubscribe_keeps_linked. }
    split; [done|]. unfold subscription_step in *. simpl in *.
    rewrite unsubscribe_unlinked_silent in * by done.
    assert (Hn : name (_unsubscribe repr owner sub acc.1).1 = name acc.1).
    { unfold _unsubscribe. by case (_ && _). }
    rewrite Hn in *. split; [done|]. by rewrite H3, app_nil_r.
Qed.

Lemma subscriptions_of_new_signal (owner : Pair) (n : string)
    (history : list (bool * string)) :
  (subscriptions repr owner history (JSSignal__init__ n)).2
  = flat_map (fun o : bool * string =>
                if o.1 then _link_js_signal repr owner n true else [])
             history.
Proof.
  destruct (subscriptions_from owner history (JSSignal__init__ n, []))
    as (_ & _ & H); [done|].
  exact H.
Qed.

(** [HasSignals.__init__] leaves the class-level state of [Pair] alone. *)
Lemma init_signal_class_state (self : loc) (kwargs : list (string * json))
    (acc : World * Output) (decl : string * SignalClass * option json) :
  _counter (init_signal repr saves self kwargs acc decl).1 = _counter acc.1
  /\ _instances (init_signal repr saves self kwargs acc decl).1
     = _instances acc.1.
Proof.
  destruct acc as [w out], decl as [[n c] dflt]. simpl.
  by destruct (heap w !! self).
Qed.

Lemma HasSignals_init_class_state (cls : Class) (self : loc)
    (kwargs : list (string * json)) (w : World) :
  _counter (HasSignals__init__ repr saves cls self kwargs w).1 = _counter w
  /\ _instances (HasSignals__init__ repr saves cls self kwargs w).1
     = _instances w.
Proof.
  unfold HasSignals__init__.
  change w with ((w, @nil (proxy * string)).1) at 2 4.
  generalize (w, @nil (proxy * string)).
  induction (__signals__ cls) as [|decl decls IH]; intros acc; [done|].
  simpl. destruct (IH (init_signal repr saves self kwargs acc decl)) as [-> ->].
  apply init_signal_class_state.
Qed.

Section WithHook.

Variable _init : loc -> World -> World * Output.

(** [__init__] in three steps: the world [w1] in which the hook is entered,
    the hook, the signals. *)
Lemma init_unfold (cls : Class) (self : loc) (proxy_arg : option proxy)
    (kwargs : list (string * json)) (w : World) :
  let i := __name__ cls +:+ pretty (_counter w + 1)%N in
  let p := default (default_proxy w) proxy_arg in
  let w1 := mkWorld (_counter w + 1)%N (<[i := self]> (_instances w))
                    (<[self := mkPair i p ∅]> (heap w)) (default_proxy w) in
  let hooked := _init self w1 in
  let inited := HasSignals__init__ repr saves cls self kwargs hooked.1 in
  __init__ repr saves _init cls self proxy_arg kwargs w
  = (inited.1,
     (p, "flexx.instances." +:+ i +:+ " = new flexx.classes." +:+ __name__ cls
         +:+ "(" +:+ repr i +:+ ");") :: hooked.2 ++ inited.2).
Proof.
  intros i p w1 hooked inited. subst inited hooked.
  unfold __init__. fold i p. fold w1.
  destruct (_init self w1) as [w2 out2]. simpl.
  by destruct (HasSignals__init__ repr saves cls self kwargs w2).
Qed.


End WithHook.

(** With the hook of the base class, each call of [__init__] adds one to
    the counter and registers the object under the id made from it. *)
Lemma init_counts (cls : Class) (self : loc) (proxy_arg : option proxy)
    (kwargs : list (string * json)) (w : World) :
  let r := __init__ repr saves _init_pass cls self proxy_arg kwargs w in
  _counter r.1 = (_counter w + 1)%N
  /\ get_instance_by_id r.1 (__name__ cls +:+ pretty (_counter w + 1)%N)
     = Some self.
Proof.
  simpl. rewrite init_unfold. simpl. unfold get_instance_by_id.
  destruct (HasSignals_init_class_state cls self kwargs
      (mkWorld (_counter w + 1)%N
         (<[__name__ cls +:+ pretty (_counter w + 1)%N := self]> (_instances w))
         (<[self := mkPair (__name__ cls +:+ pretty (_counter w + 1)%N)
                      (default (default_proxy w) proxy_arg) ∅]> (heap w))
         (default_proxy w))) as [-> ->].
  split; [done|]. apply lookup_insert_eq.
Qed.

(** Ids of one class made from different counts differ. *)
Lemma ids_of_one_class_differ (cls : string) (n m : N) :
  n <> m -> cls +:+ pretty n <> cls +:+ pretty m.
Proof.
  intros Hnm Heq. apply Hnm.
  apply (inj pretty). by apply (inj (String.app cls)).
Qed.

(** Decoding what [__json__] made is a lookup of the id. *)
Lemma from_json_of_json (w : World) (ob : Pair) :
  __from_json__ w (__json__ ob) = inr (get_instance_by_id w (_id ob)).
Proof. reflexivity. Qed.

Lemma revive_reference (w : World) (i : string) :
  revive w (VDict [("__type__", VStr "Flexx-Pair"); ("id", VStr i)])
  = Revived (inr (get_instance_by_id w i)).
Proof. reflexivity. Qed.

(** A collected object is in the registry under no id. *)
Lemma collect_unregisters (w : World) (self : loc) (i : string) :
  get_instance_by_id w i = Some self ->
  get_instance_by_id (collect self w) i = None.
Proof.
  unfold get_instance_by_id, collect. simpl. intros Hreg.
  apply map_lookup_filter_None. right.
  intros l Hl. simpl. rewrite Hreg in Hl. intros H. apply H. congruence.
Qed.

(** C9, as the code has it.  [__json__] makes of a Pair the dictionary
    with ['__type__'] bound to ['Flexx-Pair'] and ['id'] to its id; the
    reviver registered for that tag is [__from_json__], a lookup in the
    registry: for a Pair that is registered under its id the dictionary
    decodes to that very object; once the object is collected it decodes to
    [None]; and so does a reference to an id that is not registered. *)
Theorem pair_reference_round_trip (w : World) (self : loc) (ob : Pair) :
  heap w !! self = Some ob ->
  get_instance_by_id w (_id ob) = Some self ->
  __json__ ob = [("__type__", VStr "Flexx-Pair"); ("id", VStr (_id ob))]
  /\ revive w (VDict (__json__ ob)) = Revived (__from_json__ w (__json__ ob))
  /\ __from_json__ w (__json__ ob) = inr (Some self)
  /\ revive (collect self w) (VDict (__json__ ob)) = Revived (inr None)
  /\ forall i : string,
       get_instance_by_id w i = None ->
       revive w (VDict [("__type__", VStr "Flexx-Pair"); ("id", VStr i)])
       = Revived (inr None).
Proof.
  intros Hob Hreg. split; [done|]. split; [done|].
  split; [by rewrite from_json_of_json, Hreg|].
  split.
  - change (VDict (__json__ ob))
      with (VDict [("__type__", VStr "Flexx-Pair"); ("id", VStr (_id ob))]).
    by rewrite revive_reference, (collect_unregisters w self (_id ob) Hreg).
  - intros i Hi. by rewrite revive_reference, Hi.
Qed.

End WithBuiltins.

(** C2 fails on the code.  Two subscribers attach to a new proxy of the JS
    signal [count] and detach again: both subscriptions send the link
    command (the second one with a subscriber already there), [_linked] is
    never set, and the last unsubscription sends no unlink command. *)
Theorem link_sent_on_every_subscribe :
  let s1 := _subscribe Sample.repr Sample.owner "a" Sample.count_proxy in
  let s2 := _subscribe Sample.repr Sample.owner "b" s1.1 in
  let s3 := _unsubscribe Sample.repr Sample.owner "b" s2.1 in
  let s4 := _unsubscribe Sample.repr Sample.owner "a" s3.1 in
  s1.2 = [(0%nat, "flexx.instances.Widget1._link_js_signal('count', true);")]
  /\ _downstream s1.1 = ["a"]
  /\ s2.2 = [(0%nat, "flexx.instances.Widget1._link_js_signal('count', true);")]
  /\ _downstream s2.1 = ["a"; "b"]
  /\ _linked s2.1 = false
  /\ s3.2 = []
  /\ _downstream s4.1 = []
  /\ s4.2 = [].
Proof. by vm_compute. Qed.

Lemma signal_changed_sends_one_apply_witness :
  _signal_changed Sample.repr Sample.saves Sample.owner Sample.title_py
  = [(0%nat, "flexx.instances.Widget1._set_signal_from_py('title', 'hi');")].
Proof.
  apply (signal_changed_sends_one_apply Sample.repr Sample.saves
           Sample.owner Sample.title_py).
  discriminate.
Defined.

(** C5 fails on the code.  Twelve constructor calls in one process, the
    second for class [A1], the others for class [A]: the second and the
    twelfth object are different objects, both alive, and both have the id
    [A12]; the registry holds the twelfth under that id, so the second one
    can no longer be found. *)
Theorem ids_of_two_classes_collide :
  let r := Sample.construct_all
             [Sample.A; Sample.A1; Sample.A; Sample.A; Sample.A; Sample.A;
              Sample.A; Sample.A; Sample.A; Sample.A; Sample.A; Sample.A]
             Sample.py_world in
  exists second twelfth : loc,
    r.1 !! 1%nat = Some second
    /\ r.1 !! 11%nat = Some twelfth
    /\ second <> twelfth
    /\ _id <$> heap r.2 !! second = Some "A12"
    /\ _id <$> heap r.2 !! twelfth = Some "A12"
    /\ get_instance_by_id r.2 "A12" = Some twelfth
    /\ _counter r.2 = 12%N.
Proof. exists 2%positive, 12%positive. by vm_compute. Qed.


(** C9 as stated fails on the tag: the dictionary that [__json__] makes of
    a Pair is not tagged ['Pair-Ref'], and a dictionary that is tagged so is
    not decoded by a lookup in the registry: it stays a dictionary. *)
Lemma pair_reference_tag_is_not_Pair_Ref :
  let r := __init__ Sample.repr Sample.saves _init_pass Sample.Counter
             1%positive None [] Sample.py_world in
  get_instance_by_id r.1 "Counter1" = Some 1%positive
  /\ (forall ob, heap r.1 !! 1%positive = Some ob ->
      dict_get "__type__" (__json__ ob) <> Some (VStr "Pair-Ref")
      /\ dict_get "type" (__json__ ob) = None)
  /\ revive r.1 (VDict [("__type__", VStr "Pair-Ref"); ("id", VStr "Counter1")])
     = Plain (VDict [("__type__", VStr "Pair-Ref"); ("id", VStr "Counter1")]).
Proof.
  split; [by vm_compute|]. split; [|by vm_compute].
  intros ob _. by vm_compute.
Qed.

Lemma pair_reference_round_trip_witness :
  let r := __init__ Sample.repr Sample.saves _init_pass Sample.Counter
             1%positive None [] Sample.py_world in
  revive r.1 (VDict [("__type__", VStr "Flexx-Pair"); ("id", VStr "Counter1")])
  = Revived (inr (Some 1%positive))
  /\ revive (collect 1%positive r.1)
       (VDict [("__type__", VStr "Flexx-Pair"); ("id", VStr "Counter1")])
     = Revived (inr None).
Proof.
  set (ob := mkPair "Counter1" 0%nat
               {["count" := mkSignal "count" InputSignal (VInt 0) false []]}).
  intros r.
  destruct (pair_reference_round_trip r.1 1%positive ob)
    as (_ & H1 & H2 & H3 & _); [reflexivity..|].
  split; [exact (eq_trans H1 (f_equal Revived H2)) | exact H3].
Defined.

End PyFacts.

(** * Properties of class creation *)
Module MetaFacts.
Import Meta.

Lemma dict_get_setattr_ne (name k : string) (v : Attr) (d : Dict) :
  name <> k -> dict_get k (setattr name v d) = dict_get k d.
Proof.
  intros Hne. induction d as [|[k' v'] d IH]; simpl.
  - by rewrite decide_False.
  - destruct (decide (k' = name)) as [->|Hk]; simpl.
    + by rewrite !decide_False.
    + by rewrite IH.
Qed.

(** [setattr] under a name that is not bound adds the binding at the end. *)
Lemma setattr_fresh (name : string) (v : Attr) (d : Dict) :
  dict_get name d = None -> setattr name v d = d ++ [(name, v)].
Proof.
  induction d as [|[k' v'] d IH]; simpl; [done|].
  destruct (decide (k' = name)); [done|]. intros H. by rewrite IH.
Qed.

Lemma getattr_setattr_ne (name k : string) (v : Attr) (d inherited : Dict) :
  name <> k -> getattr (setattr name v d) inherited k = getattr d inherited k.
Proof. intros Hne. unfold getattr. by rewrite dict_get_setattr_ne. Qed.

Lemma getattr_None_own (d inherited : Dict) (name : string) :
  getattr d inherited name = None -> dict_get name d = None.
Proof. unfold getattr. by destruct (dict_get name d). Qed.

(** An attribute that is found is found after [setattr] under a name that
    was not. *)
Lemma getattr_setattr_other (name k : string) (v a : Attr) (d inherited : Dict) :
  getattr d inherited name = None ->
  getattr d inherited k = Some a ->
  getattr (setattr name v d) inherited k = Some a.
Proof.
  intros Hnone Hsome. rewrite getattr_setattr_ne; [done|].
  intros ->. congruence.
Qed.

Section WithRepr.

Variable repr : string -> string.

(** *** The loop over the Python signals (lines 127-137) *)

Lemma proxy_Py_signal_keeps (inherited : Dict) (st : Dict * list string)
    (item : string * Attr) (k : string) (a : Attr) :
  getattr st.1 inherited k = Some a ->
  getattr (proxy_Py_signal repr inherited st item).1 inherited k = Some a.
Proof.
  destruct st as [JS out], item as [name val]. simpl. intros Hk.
  destruct (is_Signal val && negb (is_JSSignal val)); [|done].
  destruct (getattr JS inherited name) as [b|] eqn:Hname.
  - by destruct (is_PySignal b).
  - destruct (is_InputSignal val); simpl; by apply getattr_setattr_other.
Qed.

Lemma proxy_Py_signal_printed (inherited : Dict) (st : Dict * list string)
    (item : string * Attr) (line : string) :
  line ∈ st.2 -> line ∈ (proxy_Py_signal repr inherited st item).2.
Proof.
  destruct st as [JS out], item as [name val]. simpl. intros Hin.
  destruct (is_Signal val && negb (is_JSSignal val)); [|done].
  destruct (getattr JS inherited name) as [b|].
  - destruct (is_PySignal b); [done|]. simpl. set_solver.
  - by destruct (is_InputSignal val).
Qed.

Lemma Py_loop_keeps (inherited : Dict) (items : Dict)
    (st : Dict * list string) (k : string) (a : Attr) (line : string) :
  (getattr st.1 inherited k = Some a ->
   getattr (fold_left (proxy_Py_signal repr inherited) items st).1 inherited k
   = Some a)
  /\ (line ∈ st.2 ->
      line ∈ (fold_left (proxy_Py_signal repr inherited) items st).2).
Proof.
  revert st. induction items as [|item items IH]; intros st; [done|].
  simpl. destruct (IH (proxy_Py_signal repr inherited st item)) as [IH1 IH2].
  split; intros H.
  - by apply IH1, proxy_Py_signal_keeps.
  - by apply IH2, proxy_Py_signal_printed.
Qed.

Lemma Py_loop_collision (inherited : Dict) (items : Dict)
    (st : Dict * list string) (name : string) (val : Attr) (what : string) :
  (name, val) ∈ items ->
  is_Signal val = true -> is_JSSignal val = false ->
  getattr st.1 inherited name = Some (AOther what) ->
  let r := fold_left (proxy_Py_signal repr inherited) items st in
  getattr r.1 inherited name = Some (AOther what) /\ warn_Py repr name ∈ r.2.
Proof.
  intros Hin Hsig Hjs. revert st.
  induction items as [|item items IH]; intros st Hattr; [by inversion Hin|].
  simpl. apply elem_of_cons in Hin as [<- | Hin].
  - assert (Hst' : proxy_Py_signal repr inherited st (name, val)
                   = (st.1, st.2 ++ [warn_Py repr name])).
    { destruct st as [JS out]. simpl in *. by rewrite Hsig, Hjs, Hattr. }
    rewrite Hst'.
    destruct (Py_loop_keeps inherited items (st.1, st.2 ++ [warn_Py repr name])
                name (AOther what) (warn_Py repr name)) as [H1 H2].
    split; [by apply H1|]. apply H2. simpl. apply elem_of_app. right.
    by apply list_elem_of_singleton.
  - apply IH; [done|]. by apply proxy_Py_signal_keeps.
Qed.

(** *** The loop over the JS signals (lines 102-110) *)

Lemma proxy_JS_signal_keeps (inherited : Dict)
    (st : Dict * list string * list string) (item : string * Attr)
    (k : string) (a : Attr) (line : string) (x : string * Attr) :
  let st' := proxy_JS_signal repr inherited st item in
  (getattr st.1.1 inherited k = Some a ->
   getattr st'.1.1 inherited k = Some a
   /\ (k ∈ st'.1.2 -> k ∈ st.1.2))
  /\ (line ∈ st.2 -> line ∈ st'.2)
  /\ (x ∈ st.1.1 -> x ∈ st'.1.1).
Proof.
  destruct st as [[d sigs] out], item as [name val]. simpl.
  destruct (is_Signal val && negb (is_PySignal val)); [|done].
  destruct (getattr d inherited name) as [b|] eqn:Hname.
  - destruct (is_JSSignal b); [done|]. simpl.
    split; [done|]. split; [set_solver|done].
  - simpl. split; [|split; [done|]].
    + intros Hk. split; [by apply getattr_setattr_other|].
      intros Hin. apply elem_of_app in Hin as [Hin|Hin]; [done|].
      apply list_elem_of_singleton in Hin as ->. congruence.
    + rewrite setattr_fresh by (by eapply getattr_None_own). set_solver.
Qed.

Lemma JS_loop_keeps (inherited : Dict) (items : Dict)
    (st : Dict * list string * list string)
    (k : string) (a : Attr) (line : string) (x : string * Attr) :
  let r := fold_left (proxy_JS_signal repr inherited) items st in
  (getattr st.1.1 inherited k = Some a ->
   getattr r.1.1 inherited k = Some a /\ (k ∈ r.1.2 -> k ∈ st.1.2))
  /\ (line ∈ st.2 -> line ∈ r.2)
  /\ (x ∈ st.1.1 -> x ∈ r.1.1).
Proof.
  revert st. induction items as [|item items IH]; intros st; [done|].
  simpl.
  destruct (IH (proxy_JS_signal repr inherited st item)) as (IH1 & IH2 & IH3).
  destruct (proxy_JS_signal_keeps inherited st item k a line x)
    as (S1 & S2 & S3).
  split; [|split].
  - intros H. destruct (S1 H) as [H1 H2]. destruct (IH1 H1) as [H3 H4].
    split; [done|]. intros Hin. by apply H2, H4.
  - intros H. by apply IH2, S2.
  - intros H. by apply IH3, S3.
Qed.

Lemma JS_loop_collision (inherited : Dict) (items : Dict)
    (st : Dict * list string * list string)
    (name : string) (val : Attr) (what : string) :
  (name, val) ∈ items ->
  is_Signal val = true -> is_PySignal val = false ->
  getattr st.1.1 inherited name = Some (AOther what) ->
  let r := fold_left (proxy_JS_signal repr inherited) items st in
  getattr r.1.1 inherited name = Some (AOther what)
  /\ warn_JS repr name ∈ r.2
  /\ (name ∈ r.1.2 -> name ∈ st.1.2).
Proof.
  intros Hin Hsig Hpy. revert st.
  induction items as [|item items IH]; intros st Hattr; [by inversion Hin|].
  simpl. apply elem_of_cons in Hin as [<- | Hin].
  - assert (Hst' : proxy_JS_signal repr inherited st (name, val)
                   = (st.1.1, st.1.2, st.2 ++ [warn_JS repr name])).
    { destruct st as [[d sigs] out]. simpl in *. by rewrite Hsig, Hpy, Hattr. }
    rewrite Hst'.
    destruct (JS_loop_keeps inherited items
                (st.1.1, st.1.2, st.2 ++ [warn_JS repr name])
                name (AOther what) (warn_JS repr name) (name, val))
      as (H1 & H2 & _).
    destruct (H1 Hattr) as [H3 H4].
    split; [done|]. split; [|done]. apply H2. simpl. apply elem_of_app. right.
    by apply list_elem_of_singleton.
  - destruct (proxy_JS_signal_keeps inherited st item name (AOther what)
                (warn_JS repr name) (name, val)) as (S1 & _ & _).
    destruct (S1 Hattr) as [H1 H2].
    destruct (IH Hin (proxy_JS_signal repr inherited st item) H1)
      as (H3 & H4 & H5).
    split; [done|]. split; [done|]. intros H. by apply H2, H5.
Qed.

(** *** The whole of [PairMeta.__init__] *)

Lemma PairMeta_init_unfold (c : ClassDef) :
  let st1 := match JS_body c with
             | Some body =>
                 fold_left (proxy_JS_signal repr (cls_inherited c)) body
                           (cls__dict__ c, cls__signals__ c, [])
             | None => (cls__dict__ c, cls__signals__ c, [])
             end in
  let st2 := fold_left (proxy_Py_signal repr (JS_inherited c)) st1.1.1
                       (compose_JS (JS_body c), st1.2) in
  PairMeta__init__ repr c
  = mkClassOut st1.1.1 st1.1.2 st2.1 st2.2
      (setattr "CSS" (default (AOther "str") (dict_get "CSS" st1.1.1))
         (setattr "JS" (AOther "class") st1.1.1))
      (setattr "CODE" (AOther "str") st2.1).
Proof.
  unfold PairMeta__init__.
  destruct (match JS_body c with Some _ => _ | None => _ end) as [[d sigs] out].
  simpl. by destruct (fold_left _ d _).
Qed.

(** A member that only the [JS] classes of the bases have is what
    [getattr] finds on the composed class [JS]. *)
Lemma copy_JS_member_unbound (JS : Dict) (item : string * Attr) (k : string) :
  item.1 <> k -> dict_get k (copy_JS_member JS item) = dict_get k JS.
Proof.
  destruct item as [name val]. simpl. intros Hne.
  destruct (negb (String.prefix "__" name)); [by apply dict_get_setattr_ne|].
  case_bool_decide; [by apply dict_get_setattr_ne|done].
Qed.

Lemma dict_get_unbound (d : Dict) (k : string) :
  k ∉ d.*1 -> dict_get k d = None.
Proof.
  induction d as [|[k' v'] d IH]; [done|]. simpl. intros Hk.
  apply not_elem_of_cons in Hk as [Hne Hk].
  rewrite decide_False by done. by apply IH.
Qed.

Lemma copy_loop_unbound (b JS : Dict) (k : string) :
  k ∉ b.*1 -> dict_get k JS = None ->
  dict_get k (fold_left copy_JS_member b JS) = None.
Proof.
  revert JS. induction b as [|item b IH]; intros JS Hk HJS; [done|].
  simpl in *. apply not_elem_of_cons in Hk as [Hne Hk].
  apply IH; [done|]. by rewrite copy_JS_member_unbound.
Qed.

Lemma compose_JS_inherited (body : option Dict) (inherited : Dict)
    (k : string) :
  (forall b, body = Some b -> k ∉ b.*1) ->
  getattr (compose_JS body) inherited k = dict_get k inherited.
Proof.
  intros Hk. unfold getattr.
  assert (H : dict_get k (compose_JS body) = None); [|by rewrite H].
  destruct body as [b|]; [|done]. specialize (Hk b eq_refl).
  unfold compose_JS. apply copy_loop_unbound; [done|].
  destruct (dict_get "__init__" b) eqn:Hinit; [|done].
  simpl. rewrite decide_False; [done|]. intros <-.
  by rewrite dict_get_unbound in Hinit.
Qed.

(** C8.  [PairMeta.__init__] is a total function of the class statement:
    no path of it raises.  Where a signal of the class body has the name of
    a member of the composed class [JS] that is no signal, the member stays
    what [getattr] finds on [JS] (no proxy takes its place) and the warning
    for the name is printed; where a signal of the [JS] body has the name of
    an attribute of the Python class that is no signal, the attribute stays,
    the name is not added to [__signals__], and the warning is printed. *)
Theorem collision_warns_and_skips (c : ClassDef) :
  let o := PairMeta__init__ repr c in
  (forall name val what,
     (name, val) ∈ cls__dict__ c ->
     is_Signal val = true -> is_JSSignal val = false ->
     getattr (compose_JS (JS_body c)) (JS_inherited c) name
     = Some (AOther what) ->
     getattr (out_JS__dict__ o) (JS_inherited c) name = Some (AOther what)
     /\ warn_Py repr name ∈ printed o)
  /\ (forall body name val what,
       JS_body c = Some body ->
       (name, val) ∈ body ->
       is_Signal val = true -> is_PySignal val = false ->
       getattr (cls__dict__ c) (cls_inherited c) name = Some (AOther what) ->
       getattr (out__dict__ o) (cls_inherited c) name = Some (AOther what)
       /\ (name ∈ out__signals__ o -> name ∈ cls__signals__ c)
       /\ warn_JS repr name ∈ printed o).
Proof.
  intros o. subst o. rewrite PairMeta_init_unfold. simpl. split.
  - intros name val what Hin Hsig Hjs Hattr.
    apply (Py_loop_collision _ _ _ name val what); [|done..].
    destruct (JS_body c) as [body|]; [|done].
    by apply (JS_loop_keeps (cls_inherited c) body
                (cls__dict__ c, cls__signals__ c, []) name val "" (name, val)).
  - intros body name val what -> Hin Hsig Hpy Hattr.
    destruct (JS_loop_collision (cls_inherited c) body
                (cls__dict__ c, cls__signals__ c, []) name val what
                Hin Hsig Hpy Hattr) as (H1 & H2 & H3).
    split; [done|]. split; [done|].
    by apply (Py_loop_keeps (JS_inherited c) _ _ name val).
Qed.

End WithRepr.

(** The class [Panel]: the Python signal [title] meets the method [title]
    that the [JS] bases give, and the JS signal [resize] meets the Python
    method [resize]. *)
Lemma collision_warns_and_skips_witness :
  let o := PairMeta__init__ Sample.repr Sample.Panel in
  (getattr (out_JS__dict__ o) (JS_inherited Sample.Panel) "title"
   = Some (AOther "method")
   /\ "Warning: Py signal 'title' not proxied, as it would hide a JS attribute."
      ∈ printed o)
  /\ (getattr (out__dict__ o) (cls_inherited Sample.Panel) "resize"
      = Some (AOther "method")
      /\ "Warning: JS signal 'resize' not proxied, as it would hide a Py attribute."
         ∈ printed o).
Proof.
  destruct (collision_warns_and_skips Sample.repr Sample.Panel) as [HPy HJS].
  split.
  - apply (HPy "title" (ASignal Py.InputSignal) "method");
      [by vm_compute; left | reflexivity..].
  - destruct (HJS _ "resize" (ASignal Py.SourceSignal) "method" eq_refl)
      as (H1 & _ & H2); [by vm_compute; do 3 right; left | reflexivity.. |].
    exact (conj H1 H2).
Defined.

(** [Panel] as a whole: the signals without a collision get their proxies
    ([pos] on the Python class, none for [title] and [size] on [JS]). *)
Example Panel_created :
  PairMeta__init__ Sample.repr Sample.Panel
  = mkClassOut
      [("title", ASignal Py.InputSignal); ("JS", AOther "class");
       ("size", ASignal Py.SourceSignal); ("pos", ASignal Py.JSSignal)]
      ["title"; "size"; "pos"]
      [("pos", ASignal Py.SourceSignal); ("size", AOther "method");
       ("resize", ASignal Py.SourceSignal)]
      ["Warning: JS signal 'resize' not proxied, as it would hide a Py attribute.";
       "Warning: Py signal 'title' not proxied, as it would hide a JS attribute.";
       "Warning: Py signal 'size' not proxied, as it would hide a JS attribute."]
      [("title", ASignal Py.InputSignal); ("JS", AOther "class");
       ("size", ASignal Py.SourceSignal); ("pos", ASignal Py.JSSignal);
       ("CSS", AOther "str")]
      [("pos", ASignal Py.SourceSignal); ("size", AOther "method");
       ("resize", ASignal Py.SourceSignal); ("CODE", AOther "str")].
Proof. reflexivity. Qed.

End MetaFacts.

(** * Further properties of the JS side *)
Module JSExtra.
Import JS.

Section WithSerializer.

Variable saves : json -> string.
Variable loads : string -> option json.

(** X1.  The state that [_signal_changed] leaves: the signals, the linked
    set, the id, the other properties and the clock are as they were; at
    most one message was added to the socket; and without a socket nothing
    has changed at all, the lock included. *)
Theorem signal_changed_effect (signal : Signal) (w : World) :
  let r := _signal_changed saves signal w in
  signals (self r.2) = signals (self w)
  /\ _linked_signals (self r.2) = _linked_signals (self w)
  /\ id (self r.2) = id (self w)
  /\ members (self r.2) = members (self w)
  /\ clock r.2 = clock w
  /\ (ws w = None -> r.2 = w)
  /\ (forall sent, ws w = Some sent ->
      ws r.2 = Some sent
      \/ ws r.2 = Some (sent ++ [signal_message saves (id (self w)) signal])).
Proof.
  unfold _signal_changed, bind, get. simpl.
  destruct (ws w) as [sent|] eqn:Hws.
  - destruct (_signal_emit_lock (self w)); simpl.
    + rewrite Hws. repeat split; try done. intros ? [= <-]. by left.
    + destruct (is_synced signal); simpl; rewrite Hws; simpl;
        repeat split; try done; intros ? [= <-]; [by right | by left].
  - repeat split; try done.
Qed.

(** X2.  On a connected instance whose lock is clear, a changed signal whose
    type is not ['PySignal'] and whose name has no leading underscore is
    pushed: exactly one message ['SIGNAL <id> <name> <text>'] is added, and
    the lock stays clear.  The proxy of a Python input signal (type
    ['PyInputSignal']) is such a signal. *)
Theorem synced_signal_pushed (signal : Signal) (sent : list string)
    (w : World) :
  ws w = Some sent ->
  _signal_emit_lock (self w) = false ->
  signal_type signal <> "PySignal" ->
  String.prefix "_" (_name signal) = false ->
  let r := _signal_changed saves signal w in
  ws r.2 = Some (sent ++ ["SIGNAL " +:+ id (self w) +:+ " " +:+ _name signal
                           +:+ " " +:+ saves (value signal)])
  /\ _signal_emit_lock (self r.2) = false
  /\ self r.2 = self w.
Proof.
  intros Hws Hlock Htype Hname r. subst r.
  rewrite JSFacts.signal_changed_synced; [|rewrite Hws; by eexists|done|].
  - simpl. by rewrite Hws.
  - unfold is_synced. rewrite Hname. by rewrite bool_decide_eq_true_2.
Qed.

(** X3.  [_signal_changed] does not read [_linked_signals]: whatever the
    linked set is, it does the same and leaves the set as it is. *)
Theorem signal_changed_ignores_links (signal : Signal)
    (linked : gmap string bool) (w : World) :
  _signal_changed saves signal (set_linked linked w)
  = ((_signal_changed saves signal w).1,
     set_linked linked (_signal_changed saves signal w).2).
Proof.
  unfold _signal_changed, bind, get. simpl.
  destruct (ws w) as [sent|]; [|done].
  destruct (_signal_emit_lock (self w)); [done|].
  by destruct (is_synced signal).
Qed.

(** Notifications for synced signals with the lock clear: each is sent. *)
Lemma notify_all_unlocked (changed : list Signal) (sent : list string)
    (w : World) :
  ws w = Some sent ->
  _signal_emit_lock (self w) = false ->
  Forall (fun s => is_synced s = true) changed ->
  let r := run_all (map (_signal_changed saves) changed) w in
  r.1 = inr tt
  /\ ws r.2 = Some (sent ++ map (signal_message saves (id (self w))) changed)
  /\ self r.2 = self w.
Proof.
  revert sent w. induction changed as [|s changed IH];
    intros sent w Hws Hlock Hall; simpl.
  - by rewrite app_nil_r.
  - apply Forall_cons in Hall as [Hs Hall]. unfold bind.
    rewrite JSFacts.signal_changed_synced; [|rewrite Hws; by eexists|done..].
    destruct (IH (sent ++ [signal_message saves (id (self w)) s])
                 (ws_send (signal_message saves (id (self w)) s) w))
      as (H1 & H2 & H3); [simpl; by rewrite Hws|done..|].
    split; [done|]. split; [|done]. rewrite H2. simpl. by rewrite <- app_assoc.
Qed.

(** X4.  The lock swallows one notification and no more: when several
    synced signals change in a row on a connected instance whose lock is
    set, the first change is not sent and every later one is, in order. *)
Theorem lock_swallows_first_only (first : Signal) (later : list Signal)
    (sent : list string) (w : World) :
  ws w = Some sent ->
  _signal_emit_lock (self w) = true ->
  Forall (fun s => is_synced s = true) later ->
  let r := run_all (map (_signal_changed saves) (first :: later)) w in
  r.1 = inr tt
  /\ ws r.2 = Some (sent ++ map (signal_message saves (id (self w))) later)
  /\ _signal_emit_lock (self r.2) = false.
Proof.
  intros Hws Hlock Hall. simpl. unfold bind.
  rewrite JSFacts.signal_changed_locked; [|rewrite Hws; by eexists|done].
  destruct (notify_all_unlocked later sent (set_lock false w))
    as (H1 & H2 & H3); [done..|].
  split; [done|]. split; [done|]. by rewrite H3.
Qed.

(** X5.  An apply-command whose text the serializer cannot decode raises
    the decode error, whether or not the signal exists: no signal changes,
    nothing is sent, and the lock, set before the decoding, stays set. *)
Theorem undecodable_text_raises (name text : string) (w : World) :
  loads text = None ->
  _set_signal_from_py saves loads name text w
  = (inl DecodeError, set_lock true w).
Proof.
  intros Hv. unfold _set_signal_from_py, bind, modify, throw.
  by rewrite Hv.
Qed.

(** An apply-command for an existing signal without dependents on a
    connected instance, in one equation. *)
Lemma apply_connected (name text : string) (v : json) (signal : Signal)
    (w : World) :
  is_Some (ws w) ->
  loads text = Some v ->
  signals (self w) !! name = Some signal ->
  dependents (self w) !! name = None ->
  _set_signal_from_py saves loads name text w
  = (inr tt,
     set_lock false
       (set_signal name
          (mkSignal (signal_type signal) (_name signal) v (clock w)) w)).
Proof.
  intros Hws Hv Hs Hd.
  rewrite (JSFacts.set_signal_from_py_unfold saves loads name text v signal w
             Hv Hs), JSFacts.set_unfold.
  unfold bind. rewrite JSFacts.signal_changed_locked by done.
  simpl. by rewrite Hd.
Qed.

Lemma apply_batch (cmds : list (string * string)) (w : World) :
  is_Some (ws w) ->
  Forall (fun c => is_Some (loads c.2)
                   /\ c.1 ∈ dom (signals (self w))
                   /\ dependents (self w) !! c.1 = None) cmds ->
  let r := run_all
             (map (fun c => _set_signal_from_py saves loads c.1 c.2) cmds) w in
  r.1 = inr tt
  /\ ws r.2 = ws w
  /\ dom (signals (self r.2)) = dom (signals (self w))
  /\ _signal_emit_lock (self r.2)
     = (if cmds is [] then _signal_emit_lock (self w) else false).
Proof.
  revert w. induction cmds as [|[name text] cmds IH]; intros w Hws Hall;
    [done|].
  apply Forall_cons in Hall as [([v Hv] & Hname & Hd) Hall]. simpl in *.
  apply elem_of_dom in Hname as [signal Hs]. unfold bind.
  rewrite (apply_connected name text v signal w Hws Hv Hs Hd).
  set (w' := set_lock false _).
  assert (Hdom : dom (signals (self w')) = dom (signals (self w))).
  { subst w'. simpl. apply dom_insert_lookup_L. by eexists. }
  destruct (IH w') as (H1 & H2 & H3 & H4); [done|by rewrite Hdom|].
  split; [done|]. split; [done|]. split; [by rewrite H3|].
  rewrite H4. by destruct cmds.
Qed.

(** X6.  Any run of apply-commands that decode and name signals of a
    connected instance on which nothing depends goes through without an
    exception and without one message on the socket; the set of signals is
    the same afterwards and the lock is clear. *)
Theorem apply_batch_silent (first : string * string)
    (later : list (string * string)) (sent : list string) (w : World) :
  ws w = Some sent ->
  Forall (fun c => is_Some (loads c.2)
                   /\ c.1 ∈ dom (signals (self w))
                   /\ dependents (self w) !! c.1 = None)
         (first :: later) ->
  let r := run_all
             (map (fun c => _set_signal_from_py saves loads c.1 c.2)
                  (first :: later)) w in
  r.1 = inr tt
  /\ ws r.2 = Some sent
  /\ dom (signals (self r.2)) = dom (signals (self w))
  /\ _signal_emit_lock (self r.2) = false.
Proof.
  intros Hws Hall.
  destruct (apply_batch (first :: later) w) as (H1 & H2 & H3 & H4);
    [rewrite Hws; by eexists|done|].
  split; [done|]. split; [by rewrite <- Hws|]. by split.
Qed.

(** X7.  An unlink notification never throws, sends nothing and touches
    neither the signals nor the lock, also for a name that is no signal of
    the instance; it removes the name from the linked set when it is there
    (and true), and does nothing otherwise. *)
Theorem unlink_effect (name : string) (w : World) :
  let r := _link_js_signal saves name false w in
  r.1 = inr tt
  /\ ws r.2 = ws w
  /\ signals (self r.2) = signals (self w)
  /\ _signal_emit_lock (self r.2) = _signal_emit_lock (self w)
  /\ _linked_signals (self r.2) !! name
     = (if decide (_linked_signals (self w) !! name = Some true) then None
        else _linked_signals (self w) !! name)
  /\ forall other, other <> name ->
       _linked_signals (self r.2) !! other = _linked_signals (self w) !! other.
Proof.
  unfold _link_js_signal, bind, get. simpl.
  destruct (_linked_signals (self w) !! name) as [[]|] eqn:Hl; simpl.
  - repeat split; try done.
    + apply lookup_delete_eq.
    + intros other Hne. by apply lookup_delete_ne.
  - by rewrite Hl.
  - by rewrite Hl.
Qed.

Lemma run_two (a b : M unit) (w w1 w2 : World) :
  a w = (inr tt, w1) -> b w1 = (inr tt, w2) ->
  run_all [a; b] w = (inr tt, w2).
Proof. intros Ha Hb. simpl. unfold bind. by rewrite Ha, Hb. Qed.

(** X8.  Linking an existing signal that was not linked and unlinking it
    again restores the linked set, and leaves the signals as they were
    (the socket may have received the catch-up message). *)
Theorem link_then_unlink_restores (name : string) (signal : Signal)
    (w : World) :
  signals (self w) !! name = Some signal ->
  _linked_signals (self w) !! name = None ->
  let r := run_all [_link_js_signal saves name true;
                    _link_js_signal saves name false] w in
  r.1 = inr tt
  /\ _linked_signals (self r.2) = _linked_signals (self w)
  /\ signals (self r.2) = signals (self w).
Proof.
  intros Hs Hl r.
  assert (Hw1 : exists w1,
            _link_js_signal saves name true w = (inr tt, w1)
            /\ _linked_signals (self w1)
               = <[name := true]> (_linked_signals (self w))
            /\ signals (self w1) = signals (self w)).
  { rewrite (JSFacts.link_js_signal_unfold saves name signal w Hs).
    destruct (JSFacts.signal_changed_frame saves signal
                (set_linked (<[name := true]> (_linked_signals (self w))) w))
      as (F0 & F1 & F2 & _).
    case_bool_decide; [|by eexists].
    destruct (_signal_changed saves signal _) as [res w1].
    simpl in *. subst res. by exists w1. }
  destruct Hw1 as (w1 & Hlink & Hlinked & Hsignals).
  assert (Hr : r = (inr tt, set_linked (delete name (_linked_signals (self w1)))
                              w1)).
  { subst r. apply (run_two _ _ w w1); [done|].
    unfold _link_js_signal, bind, get, ret, modify.
    by rewrite Hlinked, lookup_insert_eq. }
  rewrite Hr. simpl. rewrite Hlinked.
  split; [done|]. split; [by apply delete_insert_id|done].
Qed.

(** X9.  A link notification for a name that is no signal of the
    instance: the name is entered in the linked set first and nothing is
    sent.  When the instance has no property of that name, the access to
    [_timestamp] raises and the exception reaches the caller; when the name
    is another property of the instance ([id], a method), the timestamp is
    undefined, the test fails and the call returns normally.  Either way
    the name stays in the linked set. *)
Theorem link_of_non_signal (name : string) (w : World) :
  signals (self w) !! name = None ->
  let w' := set_linked (<[name := true]> (_linked_signals (self w))) w in
  (name ∉ members (self w) ->
   _link_js_signal saves name true w = (inl TypeError, w'))
  /\ (name ∈ members (self w) ->
      _link_js_signal saves name true w = (inr tt, w')).
Proof.
  intros Hs w'.
  unfold _link_js_signal, bind, get, modify, get_timestamp. simpl.
  rewrite Hs. split; intros Hm.
  - by rewrite bool_decide_eq_false_2.
  - by rewrite bool_decide_eq_true_2.
Qed.

(** X10.  The catch-up does not depend on a transition: a link notification
    for a signal that is linked already sends the value again.  Two
    notifications in a row, for a synced signal that was set, on a
    connected instance with the lock clear, send two messages. *)
Theorem relink_sends_again (name : string) (signal : Signal)
    (sent : list string) (w : World) :
  signals (self w) !! name = Some signal ->
  _timestamp signal > 1 ->
  is_synced signal = true ->
  ws w = Some sent ->
  _signal_emit_lock (self w) = false ->
  let r := run_all [_link_js_signal saves name true;
                    _link_js_signal saves name true] w in
  r.1 = inr tt
  /\ ws r.2 = Some (sent ++ [signal_message saves (id (self w)) signal;
                             signal_message saves (id (self w)) signal]).
Proof.
  intros Hs Hts Hsync Hws Hlock r.
  assert (Hlink : forall sent' w',
            signals (self w') !! name = Some signal ->
            ws w' = Some sent' -> _signal_emit_lock (self w') = false ->
            _link_js_signal saves name true w'
            = (inr tt,
               ws_send (signal_message saves (id (self w')) signal)
                 (set_linked (<[name := true]> (_linked_signals (self w')))
                    w'))).
  { intros sent' w' Hs' Hws' Hlock'.
    rewrite (JSFacts.link_js_signal_unfold saves name signal w' Hs').
    rewrite bool_decide_eq_true_2 by done.
    by rewrite JSFacts.signal_changed_synced;
      [|simpl; rewrite Hws'; by eexists|done..]. }
  subst r.
  erewrite run_two;
    [|by apply (Hlink sent)
     |by apply (Hlink (sent ++ [signal_message saves (id (self w)) signal]));
        [|simpl; rewrite Hws|] ].
  simpl. rewrite Hws. simpl. split; [done|]. by rewrite <- app_assoc.
Qed.

End WithSerializer.

Lemma signal_changed_effect_witness :
  ws (_signal_changed Sample.saves Sample.count Sample.js_world).2
  = Some ["SIGNAL Widget1 count 3"].
Proof.
  destruct (signal_changed_effect Sample.saves Sample.count Sample.js_world)
    as (_ & _ & _ & _ & _ & _ & H).
  destruct (H [] eq_refl) as [H' | H']; [discriminate H' | exact H'].
Defined.

Lemma synced_signal_pushed_witness :
  ws (_signal_changed Sample.saves
        (mkSignal "PyInputSignal" "title" (VStr "hi") 1446000002)
        Sample.js_world).2
  = Some ["SIGNAL Widget1 title hi"].
Proof.
  apply (synced_signal_pushed Sample.saves
           (mkSignal "PyInputSignal" "title" (VStr "hi") 1446000002) []
           Sample.js_world); [reflexivity | reflexivity | discriminate
                             | reflexivity].
Defined.

Lemma lock_swallows_first_only_witness :
  ws (run_all (map (_signal_changed Sample.saves)
                   [Sample.count; Sample.size; Sample.count])
              (set_lock true Sample.js_world)).2
  = Some ["SIGNAL Widget1 size null"; "SIGNAL Widget1 count 3"].
Proof.
  apply (lock_swallows_first_only Sample.saves Sample.count
           [Sample.size; Sample.count] [] (set_lock true Sample.js_world));
    [reflexivity | reflexivity | by repeat constructor].
Defined.

Lemma undecodable_text_raises_witness :
  _set_signal_from_py Sample.saves Sample.loads "count" "" Sample.js_world
  = (inl DecodeError, set_lock true Sample.js_world).
Proof.
  apply (undecodable_text_raises Sample.saves Sample.loads "count" ""
           Sample.js_world).
  reflexivity.
Defined.

Lemma apply_batch_silent_witness :
  let r := run_all
             (map (fun c => _set_signal_from_py Sample.saves Sample.loads
                              c.1 c.2)
                  [("count", "5"); ("_pos", "9"); ("count", "6")])
             Sample.js_world in
  r.1 = inr tt /\ ws r.2 = Some [].
Proof.
  destruct (apply_batch_silent Sample.saves Sample.loads ("count", "5")
              [("_pos", "9"); ("count", "6")] [] Sample.js_world)
    as (H1 & H2 & _); [reflexivity | | exact (conj H1 H2)].
  repeat constructor; try (by eexists); apply elem_of_dom; by eexists.
Defined.

Lemma unlink_effect_witness :
  let r := _link_js_signal Sample.saves "nope" false Sample.js_world in
  r.1 = inr tt /\ ws r.2 = Some []
  /\ _linked_signals (self r.2) !! "count" = None.
Proof.
  destruct (unlink_effect Sample.saves "nope" Sample.js_world)
    as (H1 & H2 & _ & _ & _ & H3).
  split; [exact H1|]. split; [exact H2|].
  rewrite (H3 "count"); [reflexivity | discriminate].
Defined.

Lemma link_then_unlink_restores_witness :
  _linked_signals
    (self (run_all [_link_js_signal Sample.saves "count" true;
                    _link_js_signal Sample.saves "count" false]
                   Sample.js_world).2)
  = ∅.
Proof.
  destruct (link_then_unlink_restores Sample.saves "count" Sample.count
              Sample.js_world) as (_ & H & _); [reflexivity..|].
  exact H.
Defined.

Lemma link_of_non_signal_witness :
  (_link_js_signal Sample.saves "nope" true Sample.js_world).1
  = inl TypeError
  /\ (_link_js_signal Sample.saves "id" true Sample.js_world).1 = inr tt
  /\ _linked_signals
       (self (_link_js_signal Sample.saves "id" true Sample.js_world).2)
       !! "id" = Some true.
Proof.
  destruct (link_of_non_signal Sample.saves "nope" Sample.js_world eq_refl)
    as [Hnope _].
  destruct (link_of_non_signal Sample.saves "id" Sample.js_world eq_refl)
    as [_ Hid].
  rewrite Hnope by (by vm_compute). rewrite Hid by (by vm_compute).
  by repeat split.
Defined.

Lemma relink_sends_again_witness :
  ws (run_all [_link_js_signal Sample.saves "count" true;
               _link_js_signal Sample.saves "count" true]
              Sample.js_world).2
  = Some ["SIGNAL Widget1 count 3"; "SIGNAL Widget1 count 3"].
Proof.
  apply (relink_sends_again Sample.saves "count" Sample.count []
           Sample.js_world); reflexivity.
Defined.

End JSExtra.

(** * Further properties of the Python side *)
Module PyExtra.
Import Py.

(** A string is a prefix of what is appended to it. *)
Lemma prefix_app (s t : string) : String.prefix s (s +:+ t) = true.
Proof.
  induction s as [|a s IH]; simpl; [by destruct t|].
  by destruct (Ascii.ascii_dec a a).
Qed.

Lemma append_assoc (a b c : string) : (a +:+ b) +:+ c = a +:+ b +:+ c.
Proof.
  induction a as [|x a IH]; [done|].
  change (String x ((a +:+ b) +:+ c) = String x (a +:+ b +:+ c)).
  by rewrite IH.
Qed.

Lemma prefix_app3 (a b c t : string) :
  String.prefix (a +:+ b +:+ c) (a +:+ b +:+ c +:+ t) = true.
Proof.
  rewrite <- (append_assoc b c t), <- (append_assoc a (b +:+ c) t).
  apply prefix_app.
Qed.

Section WithBuiltins.

Variable repr : string -> string.
Variable saves : json -> string.

(** X11.  Over any sequence of subscriptions to and unsubscriptions from a
    new [JSSignal], [_linked] stays [False], and what is executed is one
    link command (with [true]) for every subscription: no call executes the
    command with [false]. *)
Theorem JSSignal_history_links_only (owner : Pair) (n : string)
    (history : list (bool * string)) :
  let r := subscriptions repr owner history (JSSignal__init__ n) in
  _linked r.1 = false
  /\ r.2 = repeat (_proxy owner,
                   "flexx.instances." +:+ _id owner +:+ "._link_js_signal("
                   +:+ repr n +:+ ", true);")
                  (length (filter (fun o : bool * string => o.1 = true)
                                  history)).
Proof.
  destruct (PyFacts.subscriptions_from repr owner history
              (JSSignal__init__ n, [])) as (H1 & _ & H2); [done|].
  split; [exact H1|]. unfold subscriptions. rewrite H2. simpl.
  clear H1 H2. induction history as [|[[] sub] history IH]; [done|..].
  - rewrite filter_cons_True by done.
    change (length ((true, sub) :: ?l)) with (S (length l)).
    cbn [repeat flat_map fst]. unfold _link_js_signal at 1.
    cbn [app]. f_equal. exact IH.
  - rewrite filter_cons_False by done. exact IH.
Qed.

(** [HasSignals.__init__] touches no object but [self], and of [self]
    neither the id nor the proxy. *)
Lemma init_signal_frame (self : loc) (kwargs : list (string * json))
    (acc : World * Output) (decl : string * SignalClass * option json) :
  let r := init_signal repr saves self kwargs acc decl in
  (forall l, l <> self -> heap r.1 !! l = heap acc.1 !! l)
  /\ _id <$> heap r.1 !! self = _id <$> heap acc.1 !! self
  /\ _proxy <$> heap r.1 !! self = _proxy <$> heap acc.1 !! self.
Proof.
  destruct acc as [w out], decl as [[n c] dflt]. simpl.
  destruct (heap w !! self) as [ob|] eqn:Hob; simpl; [|by rewrite Hob].
  split; [intros l Hl; by rewrite lookup_insert_ne|].
  by rewrite lookup_insert_eq.
Qed.

Lemma HasSignals_init_frame (cls : Class) (self : loc)
    (kwargs : list (string * json)) (w : World) :
  let r := HasSignals__init__ repr saves cls self kwargs w in
  (forall l, l <> self -> heap r.1 !! l = heap w !! l)
  /\ _id <$> heap r.1 !! self = _id <$> heap w !! self
  /\ _proxy <$> heap r.1 !! self = _proxy <$> heap w !! self.
Proof.
  unfold HasSignals__init__.
  change w with ((w, @nil (proxy * string)).1) at 2 4 6.
  generalize (w, @nil (proxy * string)).
  induction (__signals__ cls) as [|decl decls IH]; intros acc; [done|].
  simpl.
  destruct (IH (init_signal repr saves self kwargs acc decl)) as (I1 & I2 & I3).
  destruct (init_signal_frame self kwargs acc decl) as (S1 & S2 & S3).
  split; [|split].
  - intros l Hl. etrans; [by apply I1 | by apply S1].
  - etrans; [apply I2 | apply S2].
  - etrans; [apply I3 | apply S3].
Qed.

(** X12.  A constructor call with the hook of the base class: the counter
    grows by one; the registry is the old one with the new id bound to the
    new object (other ids keep their objects; an object that had the same
    id is replaced); the object has that id and the proxy that was passed,
    or else the default one; no other object changes. *)
Theorem construction_effect (cls : Class) (self : loc)
    (proxy_arg : option proxy) (kwargs : list (string * json)) (w : World) :
  let i := __name__ cls +:+ pretty (_counter w + 1)%N in
  let r := __init__ repr saves _init_pass cls self proxy_arg kwargs w in
  _counter r.1 = (_counter w + 1)%N
  /\ _instances r.1 = <[i := self]> (_instances w)
  /\ _id <$> heap r.1 !! self = Some i
  /\ _proxy <$> heap r.1 !! self = Some (default (default_proxy w) proxy_arg)
  /\ forall l, l <> self -> heap r.1 !! l = heap w !! l.
Proof.
  intros i r. subst r. rewrite PyFacts.init_unfold. simpl. fold i.
  set (w1 := mkWorld _ _ _ _).
  destruct (PyFacts.HasSignals_init_class_state repr saves cls self kwargs w1)
    as [-> ->].
  destruct (HasSignals_init_frame cls self kwargs w1) as (F1 & -> & ->).
  subst w1. simpl. rewrite lookup_insert_eq.
  split; [done|]. split; [done|]. split; [done|]. split; [done|].
  intros l Hl. rewrite F1 by done. simpl. by rewrite lookup_insert_ne.
Qed.


(** X14.  [__from_json__] reads the entry ['id'] and nothing else: without
    that entry it raises [KeyError]; with a string there it is the lookup
    of that id, whatever the type tag and the other entries are. *)
Theorem from_json_reads_id_only (w : World) (dct : list (string * json)) :
  (dict_get "id" dct = None -> __from_json__ w dct = inl KeyError)
  /\ (forall i, dict_get "id" dct = Some (VStr i) ->
      __from_json__ w dct = inr (get_instance_by_id w i)).
Proof.
  unfold __from_json__. split.
  - by intros ->.
  - by intros i ->.
Qed.

(** X15.  What [__json__] makes of a Pair is determined by its id, and
    determines it: two Pairs have the same reference exactly when they have
    the same id, whatever their proxies and signals. *)
Theorem json_same_iff_same_id (a b : Pair) :
  __json__ a = __json__ b <-> _id a = _id b.
Proof.
  unfold __json__. split.
  - by intros [= ->].
  - by intros ->.
Qed.

(** X16.  The two halves encode a reference alike: what [Pair.JS.__json__]
    makes of the JS object of a Pair is what [Pair.__json__] makes of the
    Pair, and [Pair.__from_json__] decodes it to the Pair that the registry
    has under that id. *)
Theorem JS_reference_decodes_in_Python (w : World) (inst : JS.Instance)
    (ob : Pair) (self : loc) :
  JS.id inst = _id ob ->
  get_instance_by_id w (_id ob) = Some self ->
  JS.__json__ inst = __json__ ob
  /\ __from_json__ w (JS.__json__ inst) = inr (Some self).
Proof.
  intros Hid Hreg. unfold JS.__json__. rewrite Hid.
  split; [done|]. change (__from_json__ w (__json__ ob) = inr (Some self)).
  by rewrite PyFacts.from_json_of_json, Hreg.
Qed.

(** X17.  Every command that a method of a Pair executes goes to the proxy
    of that Pair and addresses the JS object of its id: the text starts
    with [flexx.instances.<id>.]. *)
Theorem commands_address_own_object (self : Pair) (signal : Signal)
    (n call : string) (link : bool) (p : proxy) (cmd : string) :
  (p, cmd) ∈ _signal_changed repr saves self signal
             ++ _link_js_signal repr self n link ++ call_js self call ->
  p = _proxy self
  /\ String.prefix ("flexx.instances." +:+ _id self +:+ ".") cmd = true.
Proof.
  unfold _signal_changed, _link_js_signal, call_js.
  intros Hin. repeat (apply elem_of_app in Hin as [Hin|Hin]).
  - destruct (negb _); [|by inversion Hin].
    apply list_elem_of_singleton in Hin as [= -> ->]. split; [done|].
    exact (prefix_app3 "flexx.instances." (_id self) "."
             ("_set_signal_from_py(" +:+ repr (name signal) +:+ ", "
              +:+ repr (saves (value signal)) +:+ ");")).
  - apply list_elem_of_singleton in Hin as [= -> ->]. split; [done|].
    exact (prefix_app3 "flexx.instances." (_id self) "."
             ("_link_js_signal(" +:+ repr n +:+ ", "
              +:+ (if link then "true" else "false") +:+ ");")).
  - apply list_elem_of_singleton in Hin as [= -> ->]. split; [done|].
    exact (prefix_app3 "flexx.instances." (_id self) "." (call +:+ ";")).
Qed.

(** Objects that are alive are not touched by later constructor calls. *)
Lemma construct_each_keeps (classes : list Class) (w : World) (l : loc) :
  l ∈ dom (heap w) ->
  heap (construct_each repr saves classes w).2 !! l = heap w !! l.
Proof.
  revert w. induction classes as [|cls classes IH]; intros w Hl; [done|].
  cbn [construct_each snd].
  destruct (construction_effect cls (fresh (dom (heap w))) None [] w)
    as (_ & _ & Hself & _ & Hothers).
  assert (Hne : l <> fresh (dom (heap w))).
  { intros ->. by apply (is_fresh (dom (heap w))). }
  unfold new. cbn [fst snd]. rewrite IH.
  - by apply Hothers.
  - apply elem_of_dom. rewrite Hothers by done. by apply elem_of_dom.
Qed.

(** X24.  In a run of constructor calls the object made by call number [j]
    (from 0) has the id made of the name of its class and the decimal count
    [_counter + j + 1], and has it still at the end of the run; so two
    objects of the run whose classes have the same name never have the same
    id. *)
Theorem ids_in_a_run (classes : list Class) (w : World) :
  let r := construct_each repr saves classes w in
  (forall j cls l,
     classes !! j = Some cls -> r.1 !! j = Some l ->
     _id <$> heap r.2 !! l
     = Some (__name__ cls +:+ pretty (_counter w + N.of_nat j + 1)%N))
  /\ (forall j k cj ck lj lk,
       classes !! j = Some cj -> classes !! k = Some ck ->
       r.1 !! j = Some lj -> r.1 !! k = Some lk ->
       j <> k -> __name__ cj = __name__ ck ->
       _id <$> heap r.2 !! lj <> _id <$> heap r.2 !! lk).
Proof.
  intros r.
  assert (Hids : forall j cls l,
            classes !! j = Some cls -> r.1 !! j = Some l ->
            _id <$> heap r.2 !! l
            = Some (__name__ cls +:+ pretty (_counter w + N.of_nat j + 1)%N)).
  { subst r. revert w. induction classes as [|c classes IH];
      intros w j cls l Hcls Hl; [done|].
    cbn [construct_each fst snd] in *.
    destruct (construction_effect c (fresh (dom (heap w))) None [] w)
      as (Hcount & _ & Hself & _ & _).
    unfold new in *. cbn [fst snd] in *.
    destruct j as [|j]; simpl in Hcls, Hl.
    - injection Hcls as <-. injection Hl as <-.
      rewrite construct_each_keeps.
      + rewrite Hself. do 3 f_equal. lia.
      + apply elem_of_dom.
        destruct (heap _ !! fresh (dom (heap w))); [by eexists|done].
    - rewrite (IH _ j cls l Hcls Hl), Hcount. do 3 f_equal. lia. }
  split; [exact Hids|].
  intros j k cj ck lj lk Hj Hk Hlj Hlk Hjk Hname.
  rewrite (Hids j cj lj Hj Hlj), (Hids k ck lk Hk Hlk), Hname.
  intros [= Heq]. revert Heq. apply PyFacts.ids_of_one_class_differ. lia.
Qed.

End WithBuiltins.

Lemma ids_in_a_run_witness :
  let r := construct_each Sample.repr Sample.saves
             [Sample.A; Sample.A1; Sample.A] Sample.py_world in
  _id <$> heap r.2 !! 3%positive = Some "A3"
  /\ _id <$> heap r.2 !! 1%positive <> _id <$> heap r.2 !! 3%positive.
Proof.
  destruct (ids_in_a_run Sample.repr Sample.saves
              [Sample.A; Sample.A1; Sample.A] Sample.py_world) as [H1 H2].
  split.
  - exact (H1 2%nat Sample.A 3%positive eq_refl eq_refl).
  - apply (H2 0%nat 2%nat Sample.A Sample.A); [reflexivity.. | discriminate
                                              | reflexivity].
Defined.

Lemma construction_effect_witness :
  let r := __init__ Sample.repr Sample.saves _init_pass Sample.Counter
             1%positive (Some 7%nat) [] Sample.py_world in
  _counter r.1 = 1%N
  /\ _proxy <$> heap r.1 !! 1%positive = Some 7%nat
  /\ heap r.1 !! 2%positive = None.
Proof.
  destruct (construction_effect Sample.repr Sample.saves Sample.Counter
              1%positive (Some 7%nat) [] Sample.py_world)
    as (H1 & _ & _ & H4 & H5).
  split; [exact H1|]. split; [exact H4|].
  rewrite H5; [reflexivity | discriminate].
Defined.

Lemma from_json_reads_id_only_witness :
  __from_json__ Sample.py_world [("__type__", VStr "Other")] = inl KeyError
  /\ __from_json__ Sample.py_world
       [("__type__", VStr "Other"); ("id", VStr "Counter1")]
     = inr None.
Proof.
  split.
  - apply (from_json_reads_id_only Sample.py_world
             [("__type__", VStr "Other")]).
    reflexivity.
  - destruct (from_json_reads_id_only Sample.py_world
                [("__type__", VStr "Other"); ("id", VStr "Counter1")])
      as [_ H].
    exact (H "Counter1" eq_refl).
Defined.

Lemma JS_reference_decodes_in_Python_witness :
  __from_json__ (mkWorld 1 {["Widget1" := 5%positive]} ∅ 0%nat)
    (JS.__json__ Sample.widget)
  = inr (Some 5%positive).
Proof.
  apply (JS_reference_decodes_in_Python
           (mkWorld 1 {["Widget1" := 5%positive]} ∅ 0%nat)
           Sample.widget Sample.owner 5%positive); reflexivity.
Defined.

Lemma commands_address_own_object_witness :
  String.prefix "flexx.instances.Widget1." "flexx.instances.Widget1.focus();"
  = true.
Proof.
  apply (commands_address_own_object Sample.repr Sample.saves Sample.owner
           Sample.count_proxy "count" "focus()" true 0%nat
           "flexx.instances.Widget1.focus();").
  by vm_compute; do 1 right; left.
Defined.

End PyExtra.

(** * Further properties of class creation *)
Module MetaExtra.
Import Meta.

Lemma dict_get_setattr_eq (name : string) (v : Attr) (d : Dict) :
  dict_get name (setattr name v d) = Some v.
Proof.
  induction d as [|[k' v'] d IH]; simpl.
  - by rewrite decide_True.
  - destruct (decide (k' = name)) as [->|Hk]; simpl.
    + by rewrite decide_True.
    + by rewrite decide_False.
Qed.

Lemma dict_get_None_keys (d : Dict) (k : string) :
  dict_get k d = None -> k ∉ d.*1.
Proof.
  induction d as [|[k' v'] d IH]; simpl; [intros _; apply not_elem_of_nil|].
  destruct (decide (k' = k)); [done|]. intros H.
  apply not_elem_of_cons. split; [done|by apply IH].
Qed.

Lemma dict_get_elem (d : Dict) (k : string) (v : Attr) :
  NoDup d.*1 -> (k, v) ∈ d -> dict_get k d = Some v.
Proof.
  induction d as [|[k' v'] d IH]; simpl; intros Hnd Hin; [by inversion Hin|].
  apply NoDup_cons in Hnd as [Hk' Hnd].
  apply elem_of_cons in Hin as [[= <- <-]|Hin]; [by rewrite decide_True|].
  rewrite decide_False; [by apply IH|].
  intros ->. apply Hk'. apply list_elem_of_fmap. by exists (k, v).
Qed.

Section WithRepr.

Variable repr : string -> string.

(** *** The shape of what the loop over the JS signals leaves *)

Lemma proxy_JS_signal_shape (inherited : Dict)
    (st : Dict * list string * list string) (item : string * Attr) :
  exists added warnings,
    proxy_JS_signal repr inherited st item
    = (st.1.1 ++ added, st.1.2 ++ added.*1, st.2 ++ warnings)
    /\ Forall (fun x : string * Attr => x.2 = ASignal Py.JSSignal) added
    /\ (NoDup st.1.1.*1 -> NoDup (st.1.1 ++ added).*1).
Proof.
  destruct st as [[d sigs] out], item as [name val]. simpl.
  assert (Hsame : exists added warnings : list _,
            (d, sigs, out) = (d ++ added, sigs ++ added.*1, out ++ warnings)
            /\ Forall (fun x : string * Attr => x.2 = ASignal Py.JSSignal) added
            /\ (NoDup d.*1 -> NoDup (d ++ added).*1)).
  { exists [], []. by rewrite !app_nil_r. }
  destruct (is_Signal val && negb (is_PySignal val)); [|done].
  destruct (getattr d inherited name) as [b|] eqn:Hname.
  - destruct (is_JSSignal b); [done|].
    exists [], [warn_JS repr name]. by rewrite !app_nil_r.
  - apply MetaFacts.getattr_None_own in Hname.
    exists [(name, ASignal Py.JSSignal)], []. rewrite app_nil_r.
    rewrite MetaFacts.setattr_fresh by done.
    split; [done|]. split; [by repeat constructor|].
    intros Hnd. rewrite fmap_app. apply NoDup_app. split; [done|].
    split; [|apply NoDup_singleton].
    intros k Hk Hk'. apply list_elem_of_singleton in Hk' as ->.
    by apply (dict_get_None_keys d name).
Qed.

Lemma JS_loop_shape (inherited : Dict) (items : Dict)
    (st : Dict * list string * list string) :
  exists added warnings,
    fold_left (proxy_JS_signal repr inherited) items st
    = (st.1.1 ++ added, st.1.2 ++ added.*1, st.2 ++ warnings)
    /\ Forall (fun x : string * Attr => x.2 = ASignal Py.JSSignal) added
    /\ (NoDup st.1.1.*1 -> NoDup (st.1.1 ++ added).*1).
Proof.
  revert st. induction items as [|item items IH]; intros st.
  - exists [], []. rewrite !app_nil_r. by destruct st as [[??]?].
  - simpl.
    destruct (proxy_JS_signal_shape inherited st item)
      as (a1 & w1 & -> & Ha1 & Hnd1).
    destruct (IH (st.1.1 ++ a1, st.1.2 ++ a1.*1, st.2 ++ w1))
      as (a2 & w2 & -> & Ha2 & Hnd2).
    exists (a1 ++ a2), (w1 ++ w2). simpl in *.
    rewrite fmap_app, !app_assoc. split; [done|].
    split; [by apply Forall_app|]. intros Hnd. by apply Hnd2, Hnd1.
Qed.

(** X18.  The namespace of the class when [PairMeta.__init__] returns: the
    old namespace, followed by new entries that are all [JSSignal] proxies
    (none when the class has no nested [class JS]), with ['JS'] then bound
    to the composed class and ['CSS'] to the own CSS of the class, or to
    the empty string when it has none; [__signals__] is the old list
    followed by the names of exactly the new proxies, in the same order. *)
Theorem Python_class_namespace (c : ClassDef) :
  let o := PairMeta__init__ repr c in
  exists added : Dict,
    out__dict__ o = cls__dict__ c ++ added
    /\ out__signals__ o = cls__signals__ c ++ added.*1
    /\ Forall (fun x : string * Attr => x.2 = ASignal Py.JSSignal) added
    /\ (JS_body c = None -> added = [])
    /\ cls_namespace o
       = setattr "CSS"
           (default (AOther "str") (dict_get "CSS" (cls__dict__ c ++ added)))
           (setattr "JS" (AOther "class") (cls__dict__ c ++ added)).
Proof.
  intros o. subst o. rewrite MetaFacts.PairMeta_init_unfold. simpl.
  destruct (JS_body c) as [body|].
  - destruct (JS_loop_shape (cls_inherited c) body
                (cls__dict__ c, cls__signals__ c, []))
      as (added & warnings & -> & Hadded & _).
    exists added. by simpl.
  - exists []. by rewrite !app_nil_r.
Qed.

Lemma getattr_setattr_eq (name : string) (v : Attr) (d inherited : Dict) :
  getattr (setattr name v d) inherited name = Some v.
Proof. unfold getattr. by rewrite dict_get_setattr_eq. Qed.

(** X19.  The assignments at the end of [PairMeta.__init__] touch the
    names ['JS'] and ['CSS'] of the class and ['CODE'] of [cls.JS] and no
    other: under any other name [getattr] finds in the final namespaces
    what the proxy loops left, and a member that it found before the call
    it finds unchanged after.  ['JS'], ['CSS'] and ['CODE'] are own members
    of every class afterwards; the own ['CSS'] is what the namespace of the
    class has under that name, or else the empty string, whatever the bases
    have. *)
Theorem members_kept (c : ClassDef) (k : string) (a : Attr) :
  let o := PairMeta__init__ repr c in
  (k <> "JS" -> k <> "CSS" ->
   getattr (cls_namespace o) (cls_inherited c) k
   = getattr (out__dict__ o) (cls_inherited c) k
   /\ (getattr (cls__dict__ c) (cls_inherited c) k = Some a ->
       getattr (cls_namespace o) (cls_inherited c) k = Some a))
  /\ (k <> "CODE" ->
      getattr (JS_namespace o) (JS_inherited c) k
      = getattr (out_JS__dict__ o) (JS_inherited c) k
      /\ (getattr (compose_JS (JS_body c)) (JS_inherited c) k = Some a ->
          getattr (JS_namespace o) (JS_inherited c) k = Some a))
  /\ getattr (cls_namespace o) (cls_inherited c) "JS" = Some (AOther "class")
  /\ getattr (cls_namespace o) (cls_inherited c) "CSS"
     = Some (default (AOther "str") (dict_get "CSS" (out__dict__ o)))
  /\ getattr (JS_namespace o) (JS_inherited c) "CODE" = Some (AOther "str").
Proof.
  intros o. subst o. rewrite MetaFacts.PairMeta_init_unfold. simpl.
  split; [|split; [|split; [|split]]].
  - intros HJS HCSS.
    rewrite !MetaFacts.getattr_setattr_ne by done. split; [done|].
    intros Hk. destruct (JS_body c) as [body|]; [|done].
    by apply (MetaFacts.JS_loop_keeps repr (cls_inherited c) body
                (cls__dict__ c, cls__signals__ c, []) k a "" (k, a)).
  - intros HCODE.
    rewrite !MetaFacts.getattr_setattr_ne by done. split; [done|].
    intros Hk.
    by apply (MetaFacts.Py_loop_keeps repr (JS_inherited c) _ _ k a "").
  - rewrite MetaFacts.getattr_setattr_ne by done. apply getattr_setattr_eq.
  - apply getattr_setattr_eq.
  - apply getattr_setattr_eq.
Qed.

(** *** Signals that get their proxy *)




Lemma proxy_JS_signal_pending (inherited : Dict)
    (st : Dict * list string * list string) (item : string * Attr)
    (name : string) :
  let pending (st : Dict * list string * list string) :=
    getattr st.1.1 inherited name = None
    \/ (getattr st.1.1 inherited name = Some (ASignal Py.JSSignal)
        /\ name ∈ st.1.2) in
  let st' := proxy_JS_signal repr inherited st item in
  pending st ->
  pending st'
  /\ (item.1 = name -> is_Signal item.2 = true -> is_PySignal item.2 = false ->
      getattr st'.1.1 inherited name = Some (ASignal Py.JSSignal)
      /\ name ∈ st'.1.2).
Proof.
  destruct st as [[d sigs] out], item as [k val]. simpl.
  intros Hpending.
  destruct (is_Signal val && negb (is_PySignal val)) eqn:Hq.
  - destruct (decide (k = name)) as [->|Hne].
    + destruct Hpending as [Hnone | [Hsome Hin]].
      * rewrite Hnone. simpl. unfold getattr at 1 2 3.
        rewrite dict_get_setattr_eq.
        assert (name ∈ sigs ++ [name]).
        { apply elem_of_app. right. by apply list_elem_of_singleton. }
        split; [by right|by intros].
      * rewrite Hsome. simpl. split; [by right|by intros].
    + split; [|done].
      destruct (getattr d inherited k) as [b|] eqn:Hk.
      * by destruct (is_JSSignal b).
      * simpl. rewrite MetaFacts.getattr_setattr_ne by done.
        destruct Hpending as [Hnone | [Hsome Hin]]; [by left|right].
        split; [done|]. apply elem_of_app. by left.
  - split; [done|]. intros -> Hs Hp. simpl in *. by rewrite Hs, Hp in Hq.
Qed.

Lemma JS_loop_proxies (inherited : Dict) (items : Dict)
    (st : Dict * list string * list string) (name : string) (val : Attr) :
  (name, val) ∈ items ->
  is_Signal val = true -> is_PySignal val = false ->
  getattr st.1.1 inherited name = None
  \/ (getattr st.1.1 inherited name = Some (ASignal Py.JSSignal)
      /\ name ∈ st.1.2) ->
  let r := fold_left (proxy_JS_signal repr inherited) items st in
  getattr r.1.1 inherited name = Some (ASignal Py.JSSignal)
  /\ name ∈ r.1.2.
Proof.
  intros Hin Hsig Hpy. revert st.
  induction items as [|item items IH]; intros st Hpending;
    [by inversion Hin|].
  simpl.
  destruct (proxy_JS_signal_pending inherited st item name Hpending)
    as [Hpending' Hdone].
  apply elem_of_cons in Hin as [<- | Hin]; [|by apply IH].
  destruct (Hdone eq_refl Hsig Hpy) as [H1 H2].
  destruct (JS_loop_shape inherited items
              (proxy_JS_signal repr inherited st (name, val)))
    as (added & warnings & Hshape & _).
  destruct (MetaFacts.JS_loop_keeps repr inherited items
              (proxy_JS_signal repr inherited st (name, val))
              name (ASignal Py.JSSignal) "" (name, val)) as (K1 & _ & _).
  split; [by apply K1|].
  rewrite Hshape. simpl. apply elem_of_app. by left.
Qed.

(** X21.  A signal of the [JS] body that is no proxy of a Python signal and
    whose name the Python class does not have gets its proxy on the Python
    class, a [JSSignal], and its name is in [__signals__]. *)
Theorem JS_signal_gets_proxy (c : ClassDef) (body : Dict) (name : string)
    (val : Attr) :
  JS_body c = Some body ->
  (name, val) ∈ body ->
  is_Signal val = true -> is_PySignal val = false ->
  getattr (cls__dict__ c) (cls_inherited c) name = None ->
  let o := PairMeta__init__ repr c in
  getattr (out__dict__ o) (cls_inherited c) name = Some (ASignal Py.JSSignal)
  /\ name ∈ out__signals__ o.
Proof.
  intros Hbody Hin Hsig Hpy Hattr o. subst o.
  rewrite MetaFacts.PairMeta_init_unfold. simpl. rewrite Hbody.
  apply (JS_loop_proxies (cls_inherited c) body
           (cls__dict__ c, cls__signals__ c, []) name val); [done..|].
  by left.
Qed.

(** *** What the composed class [JS] takes from the body *)

Lemma copy_JS_member_own (JS : Dict) (name : string) (val : Attr) :
  dict_get name (copy_JS_member JS (name, val))
  = if negb (String.prefix "__" name) || bool_decide (name ∈ OK_MAGICS)
    then Some val else dict_get name JS.
Proof.
  simpl. destruct (negb (String.prefix "__" name)); simpl;
    [apply dict_get_setattr_eq|].
  case_bool_decide; [apply dict_get_setattr_eq|done].
Qed.

Lemma copy_loop_lookup (body JS : Dict) (k : string) :
  NoDup body.*1 ->
  dict_get k (fold_left copy_JS_member body JS)
  = match dict_get k body with
    | Some v =>
        if negb (String.prefix "__" k) || bool_decide (k ∈ OK_MAGICS)
        then Some v else dict_get k JS
    | None => dict_get k JS
    end.
Proof.
  revert JS. induction body as [|[n v] body IH]; intros JS Hnd; [done|].
  simpl in Hnd. apply NoDup_cons in Hnd as [Hn Hnd].
  cbn [fold_left]. rewrite IH by done.
  cbn [dict_get]. destruct (decide (n = k)) as [->|Hne].
  - rewrite (MetaFacts.dict_get_unbound body k Hn).
    apply copy_JS_member_own.
  - by rewrite (MetaFacts.copy_JS_member_unbound JS (n, v) k Hne).
Qed.

(** X22.  The class [JS] that is composed takes from the body of the
    nested class every member whose name does not start with two
    underscores, of the others only [__init__], [__json__] and
    [__from_json__], and nothing else.  (The names of a class namespace are
    distinct.) *)
Theorem compose_JS_members (body : Dict) (k : string) :
  NoDup body.*1 ->
  dict_get k (compose_JS (Some body))
  = if negb (String.prefix "__" k) || bool_decide (k ∈ OK_MAGICS)
    then dict_get k body else None.
Proof.
  intros Hnd. unfold compose_JS. rewrite copy_loop_lookup by done.
  destruct (dict_get k body) as [v|] eqn:Hk.
  - destruct (negb (String.prefix "__" k) || bool_decide (k ∈ OK_MAGICS))
      eqn:Hkeep; [done|].
    destruct (dict_get "__init__" body); [|done].
    simpl. rewrite decide_False; [done|]. intros <-. by vm_compute in Hkeep.
  - assert (Hnone : dict_get k match dict_get "__init__" body with
                               | Some f => setattr "__init__" f []
                               | None => []
                               end = None).
    { destruct (dict_get "__init__" body) eqn:Hinit; [|done].
      simpl. rewrite decide_False; [done|]. intros <-. congruence. }
    etrans; [exact Hnone|]. by destruct (_ || _).
Qed.

(** *** Signals that have their proxy already *)

Lemma Py_loop_idle (inherited : Dict) (items : Dict)
    (st : Dict * list string) :
  (forall name val,
     (name, val) ∈ items ->
     is_Signal val = true -> is_JSSignal val = false ->
     exists a, getattr st.1 inherited name = Some a /\ is_PySignal a = true) ->
  fold_left (proxy_Py_signal repr inherited) items st = st.
Proof.
  induction items as [|[name val] items IH]; intros Hall; [done|].
  assert (Hstep : proxy_Py_signal repr inherited st (name, val) = st).
  { destruct st as [JS out]. simpl.
    destruct (is_Signal val) eqn:Hs; [|done].
    destruct (is_JSSignal val) eqn:Hj; [done|]. simpl.
    destruct (Hall name val) as (a & Ha & Hp); [by left|done..|].
    simpl in Ha. by rewrite Ha, Hp. }
  cbn [fold_left].
  rewrite Hstep. apply IH. intros n v Hin. apply Hall. by right.
Qed.

(** X23.  A class without a nested [class JS] whose signals all have their
    proxies on the [JS] classes of the bases (a subclass that states a
    signal of its base again): no proxy is made on either side,
    [__signals__] stays as it is and nothing is printed; the class gets
    its own ['JS'], whose one own member is ['CODE'], and its own
    ['CSS']. *)
Theorem redeclared_signals_accepted (c : ClassDef) :
  JS_body c = None ->
  (forall name val,
     (name, val) ∈ cls__dict__ c ->
     is_Signal val = true -> is_JSSignal val = false ->
     exists a, dict_get name (JS_inherited c) = Some a
               /\ is_PySignal a = true) ->
  PairMeta__init__ repr c
  = mkClassOut (cls__dict__ c) (cls__signals__ c) [] []
      (setattr "CSS" (default (AOther "str") (dict_get "CSS" (cls__dict__ c)))
         (setattr "JS" (AOther "class") (cls__dict__ c)))
      [("CODE", AOther "str")].
Proof.
  intros Hbody Hall. rewrite MetaFacts.PairMeta_init_unfold. simpl.
  rewrite Hbody. simpl. by rewrite Py_loop_idle.
Qed.

End WithRepr.

Lemma Python_class_namespace_witness :
  cls_namespace (PairMeta__init__ Sample.repr Sample.Panel)
  = [("title", ASignal Py.InputSignal); ("JS", AOther "class");
     ("size", ASignal Py.SourceSignal); ("pos", ASignal Py.JSSignal);
     ("CSS", AOther "str")].
Proof.
  destruct (Python_class_namespace Sample.repr Sample.Panel)
    as (added & H1 & _ & _ & _ & H5).
  apply (app_inv_head (cls__dict__ Sample.Panel) [("pos", ASignal Py.JSSignal)])
    in H1.
  rewrite H5, <- H1. reflexivity.
Defined.

Lemma members_kept_witness :
  getattr (JS_namespace (PairMeta__init__ Sample.repr Sample.Panel))
          (JS_inherited Sample.Panel) "size"
  = Some (AOther "method")
  /\ getattr (cls_namespace (PairMeta__init__ Sample.repr Sample.Panel))
             (cls_inherited Sample.Panel) "resize"
     = Some (AOther "method").
Proof.
  split.
  - destruct (members_kept Sample.repr Sample.Panel "size" (AOther "method"))
      as (_ & H & _).
    destruct H as [_ H]; [discriminate|]. apply H. reflexivity.
  - destruct (members_kept Sample.repr Sample.Panel "resize" (AOther "method"))
      as (H & _).
    destruct H as [_ H]; [discriminate..|]. apply H. reflexivity.
Defined.


Lemma JS_signal_gets_proxy_witness :
  let o := PairMeta__init__ Sample.repr Sample.Button in
  getattr (out__dict__ o) (cls_inherited Sample.Button) "pressed"
  = Some (ASignal Py.JSSignal)
  /\ "pressed" ∈ out__signals__ o.
Proof.
  apply (JS_signal_gets_proxy Sample.repr Sample.Button _ "pressed"
           (ASignal Py.SourceSignal) eq_refl);
    [by do 2 right; left | reflexivity..].
Defined.

Lemma compose_JS_members_witness :
  dict_get "__doc__" (compose_JS (JS_body Sample.Button)) = None
  /\ dict_get "__init__" (compose_JS (JS_body Sample.Button))
     = Some (AOther "method")
  /\ dict_get "_render" (compose_JS (JS_body Sample.Button))
     = Some (AOther "method").
Proof.
  set (body := [("__doc__", AOther "str"); ("__init__", AOther "method");
                ("pressed", ASignal Py.SourceSignal);
                ("_render", AOther "method")]).
  assert (Hnd : NoDup body.*1).
  { apply (bool_decide_unpack _). by vm_compute. }
  split; [|split].
  - exact (compose_JS_members body "__doc__" Hnd).
  - exact (compose_JS_members body "__init__" Hnd).
  - exact (compose_JS_members body "_render" Hnd).
Defined.

Lemma redeclared_signals_accepted_witness :
  PairMeta__init__ Sample.repr Sample.Submit
  = mkClassOut [("text", ASignal Py.InputSignal)] ["text"; "pressed"] [] []
      [("text", ASignal Py.InputSignal); ("JS", AOther "class");
       ("CSS", AOther "str")]
      [("CODE", AOther "str")].
Proof.
  apply (redeclared_signals_accepted Sample.repr Sample.Submit eq_refl).
  intros name val Hin Hs Hj.
  apply list_elem_of_singleton in Hin as [= -> ->].
  by exists (ASignal Py.PyInputSignal).
Defined.

End MetaExtra.
